(** * Naoris device heartbeat bot: a model of [src/index.js]

    The program is one JavaScript class, [DeviceHeartbeatBot], and a small
    driver.  Each bot owns an account, toggles a remote "device" on, and
    then once a minute sends a heartbeat and polls the wallet.  Every
    method is an [async] function built from [try]/[catch], [console]
    output, field updates on [this] and awaited [cloudscraper.post] calls.

    The embedding keeps that shape:
    - JavaScript values that the code inspects (responses, thrown errors)
      are the inductive [JsValue]; numbers are IEEE binary64 values, taken
      from the standard library's executable specification [spec_float];
    - an [async] method is a [Task]: a finite tree of the method's effects
      in program order, where an [Await] node is the suspension point of an
      awaited request;
    - [run] plays a task against a network that answers every request at
      once (ticks that do not overlap); [start] stops at the first
      suspension point, which is what the interrupt listeners of several
      bots need. *)

From Stdlib Require Import ZArith NArith List String Ascii Bool Lia.
From Stdlib Require Import SpecFloat DecimalString.
Import ListNotations.

Set Warnings "-register-all".

Local Open Scope string_scope.

(** ** JavaScript values *)

Module Js.

(** Binary64 parameters of [spec_float]. *)
Definition prec : Z := 53.
Definition emax : Z := 1024.

Definition number := spec_float.

Definition mul : number -> number -> number := SFmul prec emax.

(** The values the program can observe: parsed JSON bodies and thrown
    errors.  An object is the list of its own properties, first binding
    of a key first; an array is the list of its elements.  A body comes
    out of [JSON.parse], so no property of it holds a function. *)
Inductive JsValue : Type :=
| JUndefined
| JNull
| JBool (b : bool)
| JNumber (x : number)
| JString (s : string)
| JObject (props : list (string * JsValue))
| JArray (items : list JsValue).

(** Normal completion or a thrown value. *)
Inductive Completion (A : Type) : Type :=
| Normal (a : A)
| Thrown (e : JsValue).
Arguments Normal {A} a.
Arguments Thrown {A} e.

Definition nullish (v : JsValue) : bool :=
  match v with
  | JUndefined | JNull => true
  | _ => false
  end.

Definition is_nan (x : number) : bool :=
  match x with S754_nan => true | _ => false end.

(** ToBoolean. *)
Definition truthy (v : JsValue) : bool :=
  match v with
  | JUndefined | JNull => false
  | JBool b => b
  | JNumber (S754_zero _) | JNumber S754_nan => false
  | JNumber _ => true
  | JString s => negb (s =? "")
  | JObject _ => true
  | JArray _ => true
  end.

(** [a || b] *)
Definition or_else (a b : JsValue) : JsValue :=
  if truthy a then a else b.

Fixpoint lookup (key : string) (props : list (string * JsValue))
  : option JsValue :=
  match props with
  | [] => None
  | (k, v) :: rest => if k =? key then Some v else lookup key rest
  end.

Definition TypeError (message : string) : JsValue :=
  JObject [("name", JString "TypeError"); ("message", JString message)].

(** [v.key] for the keys the program reads ([message], [error],
    [details], [activeRatePerMinute], ...): none of them is inherited by
    a primitive, a plain object or an array, and none is an index or
    [length], so only the own properties of an object answer; on
    [undefined] and [null] the read throws a TypeError. *)
Definition member (v : JsValue) (key : string) : Completion JsValue :=
  match v with
  | JUndefined | JNull =>
      Thrown (TypeError ("Cannot read properties of nullish value: " ++ key))
  | JObject props =>
      Normal (match lookup key props with Some x => x | None => JUndefined end)
  | _ => Normal JUndefined
  end.

Definition zero : number := S754_zero false.
Definition one : number := S754_finite false 4503599627370496 (-52).

(** An integer counter seen as a number.  The counter only ever holds
    0, 1, 2, ...; below 2^53 each of these is a binary64 value and
    [p * 2^0] denotes it exactly ([SFmul] rounds the exact product, so
    the mantissa need not be normalised first). *)
Definition of_N (n : N) : number :=
  match n with
  | N0 => zero
  | Npos p => S754_finite false p 0
  end.

Section Builtins.

(** Two built-ins whose algorithms are not reproduced here: the
    numeric value of a string (StringToNumber) and the shortest
    decimal form of a number (Number::toString), which a template
    literal applies to a number and [toFixed] from 10^21 upwards. *)
Variable StringToNumber : string -> number.
Variable NumberToString : number -> string.

Definition hasOwn (key : string) (props : list (string * JsValue)) : bool :=
  match lookup key props with Some _ => true | None => false end.

(** What ToPrimitive throws when neither [toString] nor [valueOf] gives
    a primitive. *)
Definition notPrimitive : JsValue :=
  TypeError "Cannot convert object to primitive value".

(** [Array.prototype.join] with the default separator: the elements'
    strings with commas between; the first element whose conversion
    throws ends it. *)
Definition join (element : JsValue -> Completion string)
  : list JsValue -> Completion string :=
  fix join (l : list JsValue) : Completion string :=
    match l with
    | [] => Normal ""
    | x :: rest =>
        match element x with
        | Thrown e => Thrown e
        | Normal s =>
            match rest with
            | [] => Normal s
            | _ :: _ =>
                match join rest with
                | Thrown e => Thrown e
                | Normal r => Normal (s ++ "," ++ r)
                end
            end
        end
    end.

(** ToString, as a template literal applies it.  An object goes through
    OrdinaryToPrimitive, which calls [toString] and [valueOf] when they
    are callable and throws when neither gives a primitive.  The
    inherited [valueOf] gives the object back, so [toString] decides.
    An own [toString] property of a parsed body hides
    [Object.prototype.toString] and is not callable: the conversion
    throws.  Without one a plain object reads "[object Object]"; an own
    [valueOf] alone changes nothing, it is skipped.  An array is joined,
    [undefined] and [null] elements counting as the empty string. *)
Fixpoint ToString (v : JsValue) : Completion string :=
  match v with
  | JUndefined => Normal "undefined"
  | JNull => Normal "null"
  | JBool true => Normal "true"
  | JBool false => Normal "false"
  | JNumber x => Normal (NumberToString x)
  | JString s => Normal s
  | JObject props =>
      if hasOwn "toString" props then Thrown notPrimitive
      else Normal "[object Object]"
  | JArray items =>
      join (fun x => if nullish x then Normal "" else ToString x) items
  end.

(** ToNumber, as [*] applies it.  An object is first made a primitive,
    as above but asking [valueOf] before [toString]: the same objects
    throw, "[object Object]" is no numeric literal and gives NaN, and an
    array counts with the numeric value of its joined elements. *)
Definition ToNumber (v : JsValue) : Completion number :=
  match v with
  | JUndefined => Normal S754_nan
  | JNull => Normal zero
  | JBool true => Normal one
  | JBool false => Normal zero
  | JNumber x => Normal x
  | JString s => Normal (StringToNumber s)
  | JObject props =>
      if hasOwn "toString" props then Thrown notPrimitive
      else Normal S754_nan
  | JArray items =>
      match ToString (JArray items) with
      | Normal s => Normal (StringToNumber s)
      | Thrown e => Thrown e
      end
  end.

(** Number.prototype.toFixed(4).  For a finite [x = m * 2^e] below
    10^21 the result is the integer [n] nearest to [x * 10^4], the
    larger one on a tie, written with at least five digits and a point
    before the last four. *)
Definition scaled4 (m : positive) (e : Z) : Z :=
  match e with
  | Zneg q => (2 * (Zpos m * 10000) + 2 ^ Zpos q) / (2 * 2 ^ Zpos q)
  | _ => Zpos m * 2 ^ e * 10000
  end.

Definition at_least_1e21 (m : positive) (e : Z) : bool :=
  match e with
  | Zneg q => (10 ^ 21 * 2 ^ Zpos q <=? Zpos m)%Z
  | _ => (10 ^ 21 <=? Zpos m * 2 ^ e)%Z
  end.

Fixpoint zeros (k : nat) : string :=
  match k with O => "" | S k' => String "0" (zeros k') end.

Definition fixed4 (n : Z) : string :=
  let digits := NilZero.string_of_uint (N.to_uint (Z.to_N n)) in
  let k := String.length digits in
  let padded := zeros (5 - k) ++ digits in
  let k' := String.length padded in
  substring 0 (k' - 4) padded ++ "." ++ substring (k' - 4) 4 padded.

Definition toFixed4 (x : number) : string :=
  match x with
  | S754_nan => "NaN"
  | S754_infinity false => "Infinity"
  | S754_infinity true => "-Infinity"
  | S754_zero _ => "0.0000"
  | S754_finite s m e =>
      (if s then "-" else "") ++
      (if at_least_1e21 m e
       then NumberToString (S754_finite false m e)
       else fixed4 (scaled4 m e))
  end.

End Builtins.

End Js.
Import Js.

(** ** Data model *)

Record Account := {
  walletAddress : string;
  token : string;
  account_deviceHash : string
}.

Record BaseUrls := {
  secApi : string;
  testnetApi : string
}.

(** The fields of a [DeviceHeartbeatBot] instance.  [uptimeMinutes] is a
    JavaScript number that only ever holds 0, 1, 2, ...: it starts at 0
    and is incremented once a minute, so it stays far below 2^53, where
    [++] is exact, and is kept as a natural number. *)
Record DeviceHeartbeatBot := {
  account : Account;
  proxyConfig : option string;
  baseUrls : BaseUrls;
  uptimeMinutes : N;
  deviceHash : string;
  toggleState : bool;
  whitelistedUrls : list string;
  isInstalled : bool
}.

(** What one bot's code can reach: the instance, the [cycleCount] variable
    and the [timer] of [startHeartbeatCycle]'s closure (is the interval
    set?), and whether its SIGINT listener is registered. *)
Record Agent := {
  this : DeviceHeartbeatBot;
  cycleCount : N;
  timer : bool;
  sigint : bool
}.

Definition set_this (f : DeviceHeartbeatBot -> DeviceHeartbeatBot) (a : Agent)
  : Agent :=
  {| this := f (this a); cycleCount := cycleCount a;
     timer := timer a; sigint := sigint a |}.

Definition set_toggleState (b : bool) (t : DeviceHeartbeatBot)
  : DeviceHeartbeatBot :=
  {| account := account t; proxyConfig := proxyConfig t;
     baseUrls := baseUrls t; uptimeMinutes := uptimeMinutes t;
     deviceHash := deviceHash t; toggleState := b;
     whitelistedUrls := whitelistedUrls t; isInstalled := isInstalled t |}.

Definition set_uptimeMinutes (n : N) (t : DeviceHeartbeatBot)
  : DeviceHeartbeatBot :=
  {| account := account t; proxyConfig := proxyConfig t;
     baseUrls := baseUrls t; uptimeMinutes := n;
     deviceHash := deviceHash t; toggleState := toggleState t;
     whitelistedUrls := whitelistedUrls t; isInstalled := isInstalled t |}.

Definition set_cycleCount (n : N) (a : Agent) : Agent :=
  {| this := this a; cycleCount := n; timer := timer a; sigint := sigint a |}.

Definition set_timer (b : bool) (a : Agent) : Agent :=
  {| this := this a; cycleCount := cycleCount a; timer := b;
     sigint := sigint a |}.

Definition set_sigint (b : bool) (a : Agent) : Agent :=
  {| this := this a; cycleCount := cycleCount a; timer := timer a;
     sigint := b |}.

(** ** What the program does to the outside *)

(** The JSON bodies of the three requests. *)
Inductive Payload : Type :=
| TogglePayload (wallet state hash : string)
| HeartbeatPayload (topic wallet hash : string)
    (installed toggle : bool) (whitelist : list string)
| WalletPayload (wallet : string).

Record Request := {
  url : string;
  json : Payload;
  headers : list (string * string);
  proxy : option string
}.

(** One constructor per [console.log] / [console.error] call of the
    source, with the values it interpolates. *)
Inductive Line : Type :=
| RunningWithProxy (p : string)
| RunningWithoutProxy
| TogglingDeviceState (state : string)
| DeviceStateUpdated (state : string)
| SendingHeartbeat
| HeartbeatSent
| ServiceWorkerWakeUp
| UptimeLine (minutes : N)
| HeartbeatStopped
| BotStopped (minutes : N)
| SuccessLine (action : string) (data : JsValue)
| ErrorLine (action : string) (what : JsValue)
| WalletDetailsFor (wallet : string)
| TotalEarnings (text : string)
| TodayEarnings (text : string)
| ActiveRate (text : string)
| EstimatedSessionEarnings (amount : string).

Inductive Event : Type :=
| Console (l : Line)
| Post (rq : Request)
| SetInterval (ms : N)
| ClearInterval
| OnSigint
| ProcessExit.

(** How the promise of [cloudscraper.post] settles: with the parsed body,
    or rejected (transport error, non-2xx status) with a reason. *)
Inductive Settled : Type :=
| Fulfilled (response : JsValue)
| Rejected (reason : JsValue).

(** ** Async methods as effect trees *)

Inductive Task (A : Type) : Type :=
| Ret (a : A)
| Throw (e : JsValue)
| Get (k : Agent -> Task A)
| Update (f : Agent -> Agent) (k : Task A)
| Emit (ev : Event) (k : Task A)
| Await (rq : Request) (k : Settled -> Task A)
| Exit.
Arguments Ret {A} a.
Arguments Throw {A} e.
Arguments Get {A} k.
Arguments Update {A} f k.
Arguments Emit {A} ev k.
Arguments Await {A} rq k.
Arguments Exit {A}.

Fixpoint bind {A B} (t : Task A) (f : A -> Task B) : Task B :=
  match t with
  | Ret a => f a
  | Throw e => Throw e
  | Get k => Get (fun a => bind (k a) f)
  | Update g k => Update g (bind k f)
  | Emit ev k => Emit ev (bind k f)
  | Await rq k => Await rq (fun o => bind (k o) f)
  | Exit => Exit
  end.

(** [try { t } catch (e) { h e }] *)
Fixpoint try_catch {A} (t : Task A) (h : JsValue -> Task A) : Task A :=
  match t with
  | Ret a => Ret a
  | Throw e => h e
  | Get k => Get (fun a => try_catch (k a) h)
  | Update g k => Update g (try_catch k h)
  | Emit ev k => Emit ev (try_catch k h)
  | Await rq k => Await rq (fun o => try_catch (k o) h)
  | Exit => Exit
  end.

Declare Scope task_scope.
Delimit Scope task_scope with task.
Notation "x <- t ;; k" := (bind t (fun x => k))
  (at level 61, t at next level, right associativity) : task_scope.
Notation "t ;; k" := (bind t (fun _ => k))
  (at level 61, right associativity) : task_scope.
Local Open Scope task_scope.

Definition get : Task Agent := Get (fun a => Ret a).
Definition update (f : Agent -> Agent) : Task unit := Update f (Ret tt).
Definition emit (ev : Event) : Task unit := Emit ev (Ret tt).
Definition console (l : Line) : Task unit := emit (Console l).
Definition lift {A} (c : Completion A) : Task A :=
  match c with Normal a => Ret a | Thrown e => Throw e end.
Definition when (b : bool) (t : Task unit) : Task unit :=
  if b then t else Ret tt.

(** [await cloudscraper.post(url, {json, headers, proxy})] *)
Definition post (rq : Request) : Task JsValue :=
  Await rq (fun o =>
    match o with
    | Fulfilled response => Ret response
    | Rejected reason => Throw reason
    end).

(** ** The class *)

Definition defaultBaseUrls : BaseUrls :=
  {| secApi := "https://naorisprotocol.network/sec-api/api";
     testnetApi := "https://naorisprotocol.network/testnet-api/api/testnet" |}.

Definition formatProxy (proxy : string) : string :=
  if prefix "http" proxy then proxy else "http://" ++ proxy.

(** [new DeviceHeartbeatBot(account, proxyConfig)]: the instance and the
    line the constructor prints.  [None] is [null]; the empty string is
    falsy and gives [null] as well. *)
Definition constructor (acct : Account) (proxyArg : option string)
  : DeviceHeartbeatBot * Line :=
  let proxyCfg :=
    match proxyArg with
    | Some p => if truthy (JString p) then Some (formatProxy p) else None
    | None => None
    end in
  ({| account := acct;
      proxyConfig := proxyCfg;
      baseUrls := defaultBaseUrls;
      uptimeMinutes := 0;
      deviceHash := account_deviceHash acct;
      toggleState := true;
      whitelistedUrls := ["naorisprotocol.network"; "google.com"];
      isInstalled := true |},
   match proxyCfg with
   | Some p => RunningWithProxy p
   | None => RunningWithoutProxy
   end).

Definition userAgent : string :=
  "Mozilla/5.0 (Windows NT 10.0; Win64; x64) AppleWebKit/537.36 (KHTML, like Gecko) Chrome/132.0.0.0 Safari/537.36".

Record RequestConfig := {
  config_headers : list (string * string);
  config_proxy : option string
}.

Definition getRequestConfig (t : DeviceHeartbeatBot) : RequestConfig :=
  {| config_headers :=
       [("Authorization", "Bearer " ++ token (account t));
        ("User-Agent", userAgent);
        ("Referer", secApi (baseUrls t));
        ("Content-Type", "application/json")];
     config_proxy := proxyConfig t |}.

Definition logSuccess (action : string) (data : JsValue) : Task unit :=
  console (SuccessLine action data).

(** [error.message || error]: reading [message] throws when the caught
    value is [undefined] or [null]. *)
Definition logError (action : string) (error : JsValue) : Task unit :=
  message <- lift (member error "message") ;;
  console (ErrorLine action (or_else message error)).

Definition toggleRequest (t : DeviceHeartbeatBot) (state : string) : Request :=
  {| url := secApi (baseUrls t) ++ "/toggle";
     json := TogglePayload (walletAddress (account t)) state (deviceHash t);
     headers := config_headers (getRequestConfig t);
     proxy := proxyConfig t |}.

Definition toggleDevice (state : string) : Task unit :=
  try_catch
    (console (TogglingDeviceState state) ;;
     a <- get ;;
     response <- post (toggleRequest (this a) state) ;;
     update (set_this (set_toggleState (state =? "ON"))) ;;
     console (DeviceStateUpdated state) ;;
     logSuccess "Device Toggle" response)
    (fun error => logError "Toggle Error" error).

Definition heartbeatRequest (t : DeviceHeartbeatBot) : Request :=
  {| url := secApi (baseUrls t) ++ "/produce-to-kafka";
     json := HeartbeatPayload "device-heartbeat" (walletAddress (account t))
               (deviceHash t) (isInstalled t) (toggleState t)
               (whitelistedUrls t);
     headers := config_headers (getRequestConfig t);
     proxy := proxyConfig t |}.

Definition sendHeartbeat : Task unit :=
  try_catch
    (console SendingHeartbeat ;;
     a <- get ;;
     response <- post (heartbeatRequest (this a)) ;;
     console HeartbeatSent ;;
     logSuccess "Heartbeat" response)
    (fun error => logError "Heartbeat Error" error).

Definition walletRequest (t : DeviceHeartbeatBot) : Request :=
  {| url := testnetApi (baseUrls t) ++ "/walletDetails";
     json := WalletPayload (walletAddress (account t));
     headers := config_headers (getRequestConfig t);
     proxy := proxyConfig t |}.

Section Methods.

Variable StringToNumber : string -> number.
Variable NumberToString : number -> string.

(** [this.uptimeMinutes * (rate || 0)]: the right operand is made a
    number first, which throws for an object that has no primitive. *)
Definition sessionEarnings (uptime : N) (rate : JsValue) : Completion number :=
  match ToNumber StringToNumber NumberToString (or_else rate (JNumber zero)) with
  | Normal x => Normal (mul (of_N uptime) x)
  | Thrown e => Thrown e
  end.

(** Each template literal converts the field it interpolates to a
    string before its line is printed; a conversion that throws leaves
    the lines already printed and skips the rest. *)
Definition logWalletDetails (details : JsValue) : Task unit :=
  a <- get ;;
  rate <- lift (member details "activeRatePerMinute") ;;
  earnings <- lift (sessionEarnings (uptimeMinutes (this a)) rate) ;;
  console (WalletDetailsFor (walletAddress (account (this a)))) ;;
  total <- lift (member details "totalEarnings") ;;
  totalText <- lift (ToString NumberToString total) ;;
  console (TotalEarnings totalText) ;;
  today <- lift (member details "todayEarnings") ;;
  todayText <- lift (ToString NumberToString today) ;;
  console (TodayEarnings todayText) ;;
  shown <- lift (member details "activeRatePerMinute") ;;
  shownText <- lift (ToString NumberToString shown) ;;
  console (ActiveRate shownText) ;;
  console (EstimatedSessionEarnings (toFixed4 NumberToString earnings)).

Definition getWalletDetails : Task unit :=
  try_catch
    (a <- get ;;
     response <- post (walletRequest (this a)) ;;
     error <- lift (member response "error") ;;
     if negb (truthy error)
     then details <- lift (member response "details") ;;
          logWalletDetails details
     else logError "Wallet Details" response)
    (fun error => logError "Wallet Details Fetch" error).

(** The body of the [setInterval] callback, inside its [try]. *)
Definition timerBody : Task unit :=
  update (fun a => set_cycleCount (cycleCount a + 1) a) ;;
  update (set_this (fun t => set_uptimeMinutes (uptimeMinutes t + 1) t)) ;;
  a <- get ;;
  when (cycleCount a mod 5 =? 0)%N (console ServiceWorkerWakeUp) ;;
  a <- get ;;
  when (negb (toggleState (this a))) (toggleDevice "ON") ;;
  sendHeartbeat ;;
  getWalletDetails ;;
  a <- get ;;
  console (UptimeLine (uptimeMinutes (this a))).

(** The [catch (cycleError)] of the callback. *)
Definition timerCatch (cycleError : JsValue) : Task unit :=
  console HeartbeatStopped ;;
  logError "Heartbeat Cycle" cycleError ;;
  update (set_this (set_toggleState false)).

(** The [setInterval] callback: one tick. *)
Definition timerCallback : Task unit :=
  try_catch timerBody timerCatch.

(** The [process.on('SIGINT', ...)] listener. *)
Definition sigintListener : Task unit :=
  emit ClearInterval ;;
  update (set_timer false) ;;
  toggleDevice "OFF" ;;
  a <- get ;;
  console (BotStopped (uptimeMinutes (this a))) ;;
  emit ProcessExit ;;
  Exit.

Definition startHeartbeatCycle : Task unit :=
  try_catch
    (toggleDevice "ON" ;;
     sendHeartbeat ;;
     update (set_cycleCount 0) ;;
     emit (SetInterval 60000) ;;
     update (set_timer true) ;;
     emit OnSigint ;;
     update (set_sigint true))
    (fun error => logError "Heartbeat Cycle Start" error).

End Methods.

(** ** Running tasks *)

(** The remote side: how the [i]-th request from now on settles. *)
Definition Network := nat -> Settled.

Definition later (n : nat) (net : Network) : Network :=
  fun i => net (n + i)%nat.

(** How an async function ends: its promise resolves, it rejects, or
    [process.exit()] was called inside it. *)
Inductive Ending (A : Type) : Type :=
| Returned (a : A)
| Raised (e : JsValue)
| Terminated.
Arguments Returned {A} a.
Arguments Raised {A} e.
Arguments Terminated {A}.

Record Ran (A : Type) := {
  ending : Ending A;
  after : Agent;
  events : list Event;
  used : nat
}.
Arguments ending {A} r.
Arguments after {A} r.
Arguments events {A} r.
Arguments used {A} r.

Definition emitted {A} (ev : Event) (r : Ran A) : Ran A :=
  {| ending := ending r; after := after r;
     events := ev :: events r; used := used r |}.

Definition requested {A} (rq : Request) (r : Ran A) : Ran A :=
  {| ending := ending r; after := after r;
     events := Post rq :: events r; used := S (used r) |}.

(** Every awaited request is answered before anything else happens. *)
Fixpoint run {A} (t : Task A) (net : Network) (a : Agent) : Ran A :=
  match t with
  | Ret x => {| ending := Returned x; after := a; events := []; used := 0 |}
  | Throw e => {| ending := Raised e; after := a; events := []; used := 0 |}
  | Get k => run (k a) net a
  | Update f k => run k net (f a)
  | Emit ev k => emitted ev (run k net a)
  | Await rq k => requested rq (run (k (net 0%nat)) (later 1 net) a)
  | Exit => {| ending := Terminated; after := a; events := []; used := 0 |}
  end.

(** Running up to the first suspension point. *)
Inductive Status (A : Type) : Type :=
| Finished (e : Ending A)
| Waiting (rq : Request) (k : Settled -> Task A).
Arguments Finished {A} e.
Arguments Waiting {A} rq k.

Record Step (A : Type) := {
  status : Status A;
  step_agent : Agent;
  step_events : list Event
}.
Arguments status {A} s.
Arguments step_agent {A} s.
Arguments step_events {A} s.

Fixpoint start {A} (t : Task A) (a : Agent) : Step A :=
  match t with
  | Ret x =>
      {| status := Finished (Returned x); step_agent := a; step_events := [] |}
  | Throw e =>
      {| status := Finished (Raised e); step_agent := a; step_events := [] |}
  | Get k => start (k a) a
  | Update f k => start k (f a)
  | Emit ev k =>
      let s := start k a in
      {| status := status s; step_agent := step_agent s;
         step_events := ev :: step_events s |}
  | Await rq k =>
      {| status := Waiting rq k; step_agent := a; step_events := [Post rq] |}
  | Exit =>
      {| status := Finished Terminated; step_agent := a; step_events := [] |}
  end.

(** ** One bot's life *)

Inductive Stimulus : Type :=
| Tick
| Interrupt.

(** [Crashed]: a callback's promise rejected with nobody to catch it
    (Node 15 and later end the process on an unhandled rejection), or the
    signal arrived with no listener registered. *)
Inductive Liveness : Type :=
| Running
| ExitedCleanly
| Crashed.

Record Process := {
  agent : Agent;
  output : list Event;
  answered : nat;
  liveness : Liveness
}.

Definition absorb {A} (p : Process) (r : Ran A) : Process :=
  {| agent := after r;
     output := output p ++ events r;
     answered := (answered p + used r)%nat;
     liveness :=
       match ending r with
       | Returned _ => Running
       | Raised _ => Crashed
       | Terminated => ExitedCleanly
       end |}.

Definition exec {A} (t : Task A) (net : Network) (p : Process) : Process :=
  absorb p (run t (later (answered p) net) (agent p)).

(** [new DeviceHeartbeatBot(account, proxy)]: the process right after the
    constructor, before any method runs. *)
Definition created (acct : Account) (proxyArg : option string) : Process :=
  {| agent := {| this := fst (constructor acct proxyArg); cycleCount := 0;
                 timer := false; sigint := false |};
     output := [Console (snd (constructor acct proxyArg))];
     answered := 0;
     liveness := Running |}.

Section Life.

Variable StringToNumber : string -> number.
Variable NumberToString : number -> string.

(** [new DeviceHeartbeatBot(account, proxy)] followed by
    [bot.startHeartbeatCycle()], as [main] does for each account. *)
Definition boot (acct : Account) (proxyArg : option string) (net : Network)
  : Process :=
  exec startHeartbeatCycle net (created acct proxyArg).

(** What the event loop hands to a running bot: the interval firing
    (only once it is set) or SIGINT (the listener, or the default action
    when none is registered).  A tick is taken to its end before the next
    stimulus. *)
Definition deliver (net : Network) (p : Process) (s : Stimulus) : Process :=
  match liveness p with
  | Running =>
      match s with
      | Tick =>
          if timer (agent p)
          then exec (timerCallback StringToNumber NumberToString) net p
          else p
      | Interrupt =>
          if sigint (agent p)
          then exec sigintListener net p
          else {| agent := agent p; output := output p;
                  answered := answered p; liveness := Crashed |}
      end
  | _ => p
  end.

Definition life (net : Network) (p : Process) (ss : list Stimulus) : Process :=
  fold_left (deliver net) ss p.

End Life.

(** ** Several bots, one interrupt *)

(** What is left of [toggleDevice state] once its request has settled. *)
Definition toggleSettled (state : string) (o : Settled) : Task unit :=
  try_catch
    (response <- match o with
                 | Fulfilled response => Ret response
                 | Rejected reason => Throw reason
                 end ;;
     update (set_this (set_toggleState (state =? "ON"))) ;;
     console (DeviceStateUpdated state) ;;
     logSuccess "Device Toggle" response)
    (fun error => logError "Toggle Error" error).

(** What is left of the SIGINT listener once its OFF request has settled. *)
Definition sigintResumed (o : Settled) : Task unit :=
  toggleSettled "OFF" o ;;
  a <- get ;;
  console (BotStopped (uptimeMinutes (this a))) ;;
  emit ProcessExit ;;
  Exit.

(** When SIGINT arrives, Node calls the listeners one after the other;
    each runs up to its first [await] (timer cleared, OFF request handed
    to the transport) and is parked there.  A bot whose listener is not
    registered does nothing. *)
Definition signalled (a : Agent) : Step unit :=
  if sigint a then start sigintListener a
  else {| status := Finished (Returned tt); step_agent := a;
          step_events := [] |}.

(** Events of bot [i], [i + 1], ... in the order they happen. *)
Fixpoint tagged (i : nat) (steps : list (Step unit)) : list (nat * Event) :=
  match steps with
  | [] => []
  | s :: rest => map (pair i) (step_events s) ++ tagged (S i) rest
  end.

Fixpoint replace {A} (i : nat) (x : A) (l : list A) : list A :=
  match l, i with
  | [], _ => []
  | _ :: rest, O => x :: rest
  | y :: rest, S j => y :: replace j x rest
  end.

Record Shutdown := {
  bots : list Agent;
  trace : list (nat * Event);
  exit : Liveness
}.

(** The interrupt delivered to a fleet.  After every listener is parked,
    the request of bot [winner] settles first, with [o]; its listener
    goes on and, unless it throws, calls [process.exit()], which ends
    the process for everybody.  ([net] answers what the continuation
    might still request: nothing, as it turns out.) *)
Definition interrupt (fleet : list Agent) (winner : nat) (o : Settled)
  (net : Network) : Shutdown :=
  let steps := map signalled fleet in
  let parked := map (@step_agent unit) steps in
  match nth_error steps winner with
  | Some {| status := Waiting _ k; step_agent := a |} =>
      let r := run (k o) net a in
      {| bots := replace winner (after r) parked;
         trace := tagged 0 steps ++ map (pair winner) (events r);
         exit :=
           match ending r with
           | Returned _ => Running
           | Raised _ => Crashed
           | Terminated => ExitedCleanly
           end |}
  | _ =>
      {| bots := parked;
         trace := tagged 0 steps;
         exit := if existsb sigint fleet then Running else Crashed |}
  end.

(** ** Vocabulary of the statements *)

(** Sequencing two runs. *)
Definition chain {A B} (r : Ran A) (r2 : Ran B) : Ran B :=
  {| ending := ending r2; after := after r2;
     events := events r ++ events r2; used := (used r + used r2)%nat |}.

Definition cut {A} (B : Type) (e : Ending B) (r : Ran A) : Ran B :=
  {| ending := e; after := after r; events := events r; used := used r |}.

(** The agent once the callback has counted the tick. *)
Definition bumped (a : Agent) : Agent :=
  set_this (fun t => set_uptimeMinutes (uptimeMinutes t + 1) t)
    (set_cycleCount (cycleCount a + 1) a).

(** [v.key], [undefined] where the read would throw. *)
Definition field (v : JsValue) (key : string) : JsValue :=
  match member v key with Normal x => x | Thrown _ => JUndefined end.

(** A settlement the transport really produces: a body, or a rejection
    that carries an error value (cloudscraper rejects with Error
    objects, never with [undefined] or [null]). *)
Definition ordinary (o : Settled) : bool :=
  match o with
  | Fulfilled _ => true
  | Rejected reason => negb (nullish reason)
  end.

Definition isToggle (state : string) (ev : Event) : bool :=
  match ev with
  | Post rq =>
      match json rq with
      | TogglePayload _ st _ => st =? state
      | _ => false
      end
  | _ => false
  end.

Definition isClearInterval (ev : Event) : bool :=
  match ev with ClearInterval => true | _ => false end.

Definition isEarningsLine (ev : Event) : bool :=
  match ev with Console (EstimatedSessionEarnings _) => true | _ => false end.

(** The steps of a tick that the specification orders. *)
Inductive Operation : Type :=
| ToggleCall (state : string)
| HeartbeatCall
| WalletCall
| UptimeLog.

Definition operation (ev : Event) : option Operation :=
  match ev with
  | Post rq =>
      match json rq with
      | TogglePayload _ state _ => Some (ToggleCall state)
      | HeartbeatPayload _ _ _ _ _ _ => Some HeartbeatCall
      | WalletPayload _ => Some WalletCall
      end
  | Console (UptimeLine _) => Some UptimeLog
  | _ => None
  end.

Fixpoint operations (evs : list Event) : list Operation :=
  match evs with
  | [] => []
  | ev :: rest =>
      match operation ev with
      | Some op => op :: operations rest
      | None => operations rest
      end
  end.

(** The order of one tick: the re-toggle when the device is marked off,
    then heartbeat, wallet details and the uptime line. *)
Definition tickPlan (t : DeviceHeartbeatBot) : list Operation :=
  (if toggleState t then [] else [ToggleCall "ON"]) ++
  [HeartbeatCall; WalletCall; UptimeLog].

Definition fixedWhitelist : list string :=
  ["naorisprotocol.network"; "google.com"].

Definition heartbeatWellFormed (ev : Event) : Prop :=
  match ev with
  | Post rq =>
      match json rq with
      | HeartbeatPayload _ _ _ installed _ whitelist =>
          installed = true /\ whitelist = fixedWhitelist
      | _ => True
      end
  | _ => True
  end.

Definition installedInvariant (a : Agent) : Prop :=
  isInstalled (this a) = true /\ whitelistedUrls (this a) = fixedWhitelist.

(** The events of bot [i] in a fleet trace that satisfy [p]. *)
Definition countOf (i : nat) (p : Event -> bool) (tr : list (nat * Event))
  : nat :=
  List.length (filter (fun x => (fst x =? i)%nat && p (snd x)) tr).

(** A task keeps an invariant of the agent and only emits events of one
    kind, whatever the network answers. *)
Fixpoint respects {A} (I : Agent -> Prop) (P : Event -> Prop) (t : Task A)
  : Prop :=
  match t with
  | Ret _ | Throw _ | Exit => True
  | Get k => forall a, I a -> respects I P (k a)
  | Update f k => (forall a, I a -> I (f a)) /\ respects I P k
  | Emit ev k => P ev /\ respects I P k
  | Await rq k => P (Post rq) /\ forall o, respects I P (k o)
  end.

(** The specification's words for a proxy string that carries a scheme:
    it contains [://]. *)
Definition hasScheme (proxy : string) : bool :=
  match index 0 "://" proxy with Some _ => true | None => false end.

(** The specification's words for a toggle that failed: the request was
    rejected (network error, non-2xx status) or the body reports an error. *)
Definition toggleFailed (o : Settled) : bool :=
  match o with
  | Rejected _ => true
  | Fulfilled response => truthy (field response "error")
  end.

(** The five lines of the wallet report. *)
Definition walletReport (t : DeviceHeartbeatBot)
  (total today rate amount : string) : list Event :=
  [Console (WalletDetailsFor (walletAddress (account t)));
   Console (TotalEarnings total);
   Console (TodayEarnings today);
   Console (ActiveRate rate);
   Console (EstimatedSessionEarnings amount)].

(** The line [getWalletDetails] prints when a conversion of the report
    threw. *)
Definition conversionFailure : Event :=
  Console (ErrorLine "Wallet Details Fetch"
             (JString "Cannot convert object to primitive value")).

(** ** Sample inputs *)

Definition acctA : Account :=
  {| walletAddress := "0xA"; token := "t1"; account_deviceHash := "d1" |}.

Definition okNet : Network := fun _ => Fulfilled (JString "ok").

(** Built-ins for the sample runs that turn on neither: no string is
    numeric, and a number prints as nothing. *)
Definition noStringNumber : string -> number := fun _ => S754_nan.
Definition noLargeNumber : number -> string := fun _ => "".

(** Sample built-ins for runs whose numbers are natural numbers below
    2^53, where they agree with StringToNumber and Number::toString:
    the empty string counts as 0 and a string of decimal digits as its
    number; a natural number prints as its digits.  (On other inputs
    they give NaN and the empty string, which the built-ins do not.) *)
Definition digitsToNumber (s : string) : number :=
  if s =? "" then zero
  else match NilZero.uint_of_string s with
       | Some d => of_N (N.of_uint d)
       | None => S754_nan
       end.

Definition integerToString (x : number) : string :=
  let digits (n : Z) := NilZero.string_of_uint (N.to_uint (Z.to_N n)) in
  match x with
  | S754_zero _ => "0"
  | S754_finite false m e =>
      match e with
      | Zneg q =>
          if (Zpos m mod 2 ^ Zpos q =? 0)%Z
          then digits (Zpos m / 2 ^ Zpos q)%Z
          else ""
      | _ => digits (Zpos m * 2 ^ e)%Z
      end
  | _ => ""
  end.

Definition half : number := S754_finite false 4503599627370496 (-53).
Definition two : number := S754_finite false 4503599627370496 (-51).
Definition ten : number := S754_finite false 5629499534213120 (-49).

(** [{error:false, details:{totalEarnings:10, todayEarnings:2,
    activeRatePerMinute:0.5}}] *)
Definition scenarioResponse : JsValue :=
  JObject [("error", JBool false);
           ("details",
            JObject [("totalEarnings", JNumber ten);
                     ("todayEarnings", JNumber two);
                     ("activeRatePerMinute", JNumber half)])].

Definition agentOf (t : DeviceHeartbeatBot) : Agent :=
  {| this := t; cycleCount := uptimeMinutes t; timer := true; sigint := true |}.

Definition botA : DeviceHeartbeatBot := fst (constructor acctA None).

(** A running bot whose device is marked off. *)
Definition offAgent : Agent := agentOf (set_toggleState false botA).

(** ** The driver: prompt, files, fleet *)

(** Strings are sequences of code units; the driver's string methods are
    given on the 8-bit ones that Rocq's strings hold. *)
Module Text.

Definition lineFeed : ascii := "010"%char.

(** The characters [trim] strips, among the 8-bit ones: TAB, LF, VT,
    FF, CR, SPACE and NO-BREAK SPACE. *)
Definition isWhiteSpace (c : ascii) : bool :=
  existsb (N.eqb (N_of_ascii c)) [9; 10; 11; 12; 13; 32; 160]%N.

Fixpoint trimStart (s : string) : string :=
  match s with
  | EmptyString => EmptyString
  | String c rest => if isWhiteSpace c then trimStart rest else s
  end.

Fixpoint trimEnd (s : string) : string :=
  match s with
  | EmptyString => EmptyString
  | String c rest =>
      match trimEnd rest with
      | EmptyString => if isWhiteSpace c then EmptyString
                       else String c EmptyString
      | kept => String c kept
      end
  end.

(** String.prototype.trim *)
Definition trim (s : string) : string := trimEnd (trimStart s).

(** String.prototype.split with a one-character separator: the empty
    string gives one empty piece, and a separator at either end gives an
    empty piece there. *)
Fixpoint splitOn (sep : ascii) (s : string) : list string :=
  match s with
  | EmptyString => [EmptyString]
  | String c rest =>
      if Ascii.eqb c sep then EmptyString :: splitOn sep rest
      else match splitOn sep rest with
           | first :: others => String c first :: others
           | [] => [String c EmptyString]
           end
  end.

(** String.prototype.toLowerCase on 8-bit code units: A-Z and the
    Latin-1 capitals (all of 0xC0-0xDE but the multiplication sign) move
    up by 32. *)
Definition lowerChar (c : ascii) : ascii :=
  let n := N_of_ascii c in
  if ((65 <=? n) && (n <=? 90) ||
      (192 <=? n) && (n <=? 222) && negb (n =? 215))%N
  then ascii_of_N (n + 32)
  else c.

Fixpoint toLowerCase (s : string) : string :=
  match s with
  | EmptyString => EmptyString
  | String c rest => String (lowerChar c) (toLowerCase rest)
  end.

End Text.
Import Text.

(** What the driver prints besides the bots' own lines. *)
Inductive DriverLine : Type :=
| Banner
| ProxyConfigurationHeader
| FailedToLoadAccounts (message : JsValue)
| FailedToLoadProxies (message : JsValue)
| InitializationError (error : JsValue).

(** The answer callback of [askForProxyUsage]:
    [answer.toLowerCase() === 'y']. *)
Definition askForProxyUsage (answer : string) : bool :=
  toLowerCase answer =? "y".

(** [loadProxies], given how [fs.readFile] settled.  A failed read is
    printed and gives no proxies; only a reason without a readable
    [message] makes the function itself reject. *)
Definition loadProxies (read : Completion string)
  : Completion (list string) * list DriverLine :=
  match read with
  | Normal proxyData =>
      (Normal (filter (fun line => truthy (JString line))
                 (map trim (splitOn lineFeed proxyData))),
       [])
  | Thrown error =>
      match member error "message" with
      | Normal message => (Normal [], [FailedToLoadProxies message])
      | Thrown typeError => (Thrown typeError, [])
      end
  end.

(** How [loadAccounts] or [main] ends. *)
Inductive Loaded (A : Type) : Type :=
| Got (a : A)
| Rejects (e : JsValue)
| ProcessExits (exitCode : N).
Arguments Got {A} a.
Arguments Rejects {A} e.
Arguments ProcessExits {A} exitCode.

(** [loadAccounts], given what [fs.readFile] followed by [JSON.parse]
    gave: the accounts, read at their documented shape, or what either
    of the two threw. *)
Definition loadAccounts (parsed : Completion (list Account))
  : Loaded (list Account) * list DriverLine :=
  match parsed with
  | Normal accounts => (Got accounts, [])
  | Thrown error =>
      match member error "message" with
      | Normal message => (ProcessExits 1, [FailedToLoadAccounts message])
      | Thrown typeError => (Rejects typeError, [])
      end
  end.

(** [proxies.length ? proxies[index % proxies.length] : null] *)
Definition assignProxy (proxies : list string) (index : nat) : option string :=
  match proxies with
  | [] => None
  | _ => nth_error proxies (index mod List.length proxies)
  end.

Fixpoint mapWithIndex {A B} (f : A -> nat -> B) (index : nat) (l : list A)
  : list B :=
  match l with
  | [] => []
  | x :: rest => f x index :: mapWithIndex f (S index) rest
  end.

(** [accounts.map((account, index) => new DeviceHeartbeatBot(account,
    proxy))]: each bot as the constructor leaves it. *)
Definition createBots (accounts : list Account) (proxies : list string)
  : list Process :=
  mapWithIndex (fun acct index => created acct (assignProxy proxies index))
    0 accounts.

(** [main] up to the point where the bots are started: the banner (its
    module is not part of the sources; it is taken to return), the
    prompt, the accounts, the proxies only when asked for, the bots. *)
Definition main (answer : string) (parsed : Completion (list Account))
  (read : Completion string) : Loaded (list Process) * list DriverLine :=
  let useProxy := askForProxyUsage answer in
  let asked := [Banner; ProxyConfigurationHeader] in
  match loadAccounts parsed with
  | (Got accounts, printed) =>
      match (if useProxy then loadProxies read else (Normal [], [])) with
      | (Normal proxies, printed') =>
          (Got (createBots accounts proxies),
           (asked ++ printed ++ printed')%list)
      | (Thrown error, printed') =>
          (ProcessExits 1,
           (asked ++ printed ++ printed' ++ [InitializationError error])%list)
      end
  | (Rejects error, printed) =>
      (ProcessExits 1,
       (asked ++ printed ++ [InitializationError error])%list)
  | (ProcessExits exitCode, printed) =>
      (ProcessExits exitCode, (asked ++ printed)%list)
  end.

(** Vocabulary for the statements about the driver. *)
Definition startsWhite (s : string) : bool :=
  match s with
  | String c _ => isWhiteSpace c
  | EmptyString => false
  end.

Fixpoint endsWhite (s : string) : bool :=
  match s with
  | EmptyString => false
  | String c EmptyString => isWhiteSpace c
  | String _ rest => endsWhite rest
  end.

Fixpoint hasLineFeed (s : string) : bool :=
  match s with
  | EmptyString => false
  | String c rest => Ascii.eqb c lineFeed || hasLineFeed rest
  end.

(** A usable proxy line: not empty, no whitespace at either end, no
    line feed inside. *)
Definition clean (line : string) : bool :=
  negb (line =? "") && negb (startsWhite line) && negb (endsWhite line)
  && negb (hasLineFeed line).

(** Whitespace other than the line feed: indentation, trailing blanks,
    the CR of a CRLF line end. *)
Fixpoint allWhite (s : string) : bool :=
  match s with
  | EmptyString => true
  | String c rest => isWhiteSpace c && negb (Ascii.eqb c lineFeed)
                     && allWhite rest
  end.

Fixpoint joinLines (lines : list string) : string :=
  match lines with
  | [] => ""
  | [line] => line
  | line :: rest => line ++ String lineFeed (joinLines rest)
  end.

(** A line of the proxy file as written: the proxy with blanks around it. *)
Definition padded (entry : string * string * string) : string :=
  let '(before, line, behind) := entry in before ++ line ++ behind.

Definition middle (entry : string * string * string) : string :=
  let '(_, line, _) := entry in line.

Definition wellPadded (entry : string * string * string) : Prop :=
  let '(before, line, behind) := entry in
  allWhite before = true /\ allWhite behind = true /\
  (line = "" \/ clean line = true).

Definition nonEmpty (line : string) : bool := negb (line =? "").

(** The agent after the opening's ON toggle has settled. *)
Definition openingToggled (net : Network) (a : Agent) : Agent :=
  match net 0%nat with
  | Fulfilled _ => set_this (set_toggleState true) a
  | Rejected _ => a
  end.

Definition isTimerEvent (ev : Event) : bool :=
  match ev with SetInterval _ | OnSigint => true | _ => false end.

(** What never changes in a bot: who it is and where it sends. *)
Definition sameIdentity (t0 : DeviceHeartbeatBot) (a : Agent) : Prop :=
  account (this a) = account t0 /\
  proxyConfig (this a) = proxyConfig t0 /\
  baseUrls (this a) = baseUrls t0 /\
  deviceHash (this a) = deviceHash t0.

(** The three endpoints. *)
Definition endpoints : list string :=
  [secApi defaultBaseUrls ++ "/toggle";
   secApi defaultBaseUrls ++ "/produce-to-kafka";
   testnetApi defaultBaseUrls ++ "/walletDetails"].

Definition payloadWallet (p : Payload) : string :=
  match p with
  | TogglePayload wallet _ _ => wallet
  | HeartbeatPayload _ wallet _ _ _ _ => wallet
  | WalletPayload wallet => wallet
  end.

(** A request of the bot [t0]: its headers, its proxy, its wallet, one
    of its three URLs. *)
Definition requestOf (t0 : DeviceHeartbeatBot) (ev : Event) : Prop :=
  match ev with
  | Post rq =>
      headers rq = config_headers (getRequestConfig t0) /\
      proxy rq = proxyConfig t0 /\
      payloadWallet (json rq) = walletAddress (account t0) /\
      In (url rq) [secApi (baseUrls t0) ++ "/toggle";
                   secApi (baseUrls t0) ++ "/produce-to-kafka";
                   testnetApi (baseUrls t0) ++ "/walletDetails"]
  | _ => True
  end.

(** * Properties *)

(** ** How [run] goes through [bind] and [try_catch] *)

Lemma run_bind {A B} (t : Task A) (f : A -> Task B) net a :
  run (bind t f) net a =
  match ending (run t net a) with
  | Returned x =>
      chain (run t net a)
        (run (f x) (later (used (run t net a)) net) (after (run t net a)))
  | Raised e => cut B (Raised e) (run t net a)
  | Terminated => cut B Terminated (run t net a)
  end.
Proof.
  revert net a.
  induction t as [x|e|k IH|g k IH|ev k IH|rq k IH|]; intros net a; cbn.
  - change (later 0 net) with net. destruct (run (f x) net a); reflexivity.
  - reflexivity.
  - apply IH.
  - apply IH.
  - rewrite IH. destruct (ending (run k net a)); reflexivity.
  - rewrite IH.
    destruct (ending (run (k (net 0%nat)) (later 1 net) a)); reflexivity.
  - reflexivity.
Qed.

Lemma run_try_catch {A} (t : Task A) (h : JsValue -> Task A) net a :
  run (try_catch t h) net a =
  match ending (run t net a) with
  | Raised e =>
      chain (run t net a)
        (run (h e) (later (used (run t net a)) net) (after (run t net a)))
  | Returned x => cut A (Returned x) (run t net a)
  | Terminated => cut A Terminated (run t net a)
  end.
Proof.
  revert net a.
  induction t as [x|e|k IH|g k IH|ev k IH|rq k IH|]; intros net a; cbn.
  - reflexivity.
  - change (later 0 net) with net. destruct (run (h e) net a); reflexivity.
  - apply IH.
  - apply IH.
  - rewrite IH. destruct (ending (run k net a)); reflexivity.
  - rewrite IH.
    destruct (ending (run (k (net 0%nat)) (later 1 net) a)); reflexivity.
  - reflexivity.
Qed.

(** [run] answers the first request with [net 0]; [start] stops there. *)
Lemma run_start {A} (t : Task A) net a :
  run t net a =
  match status (start t a) with
  | Finished e =>
      {| ending := e; after := step_agent (start t a);
         events := step_events (start t a); used := 0 |}
  | Waiting rq k =>
      let r := run (k (net 0%nat)) (later 1 net) (step_agent (start t a)) in
      {| ending := ending r; after := after r;
         events := step_events (start t a) ++ events r;
         used := S (used r) |}
  end.
Proof.
  revert net a.
  induction t as [x|e|k IH|g k IH|ev k IH|rq k IH|]; intros net a; cbn;
    try reflexivity.
  - apply IH.
  - apply IH.
  - rewrite IH. destruct (status (start k a)); reflexivity.
Qed.

Lemma operations_app (xs ys : list Event) :
  operations (xs ++ ys) = (operations xs ++ operations ys)%list.
Proof.
  induction xs as [|ev xs IH]; cbn; [reflexivity|].
  destruct (operation ev); cbn; rewrite IH; reflexivity.
Qed.

Lemma member_thrown (v : JsValue) (key : string) (x : JsValue) :
  member v key = Thrown x ->
  nullish v = true /\ exists msg, x = TypeError msg.
Proof.
  destruct v; cbn; intros H; try discriminate; inversion H; eauto.
Qed.

Lemma member_normal (v : JsValue) (key : string) (m : JsValue) :
  member v key = Normal m -> nullish v = false /\ m = field v key.
Proof.
  unfold field. destruct v; cbn; intros H; try discriminate;
    inversion H; auto.
Qed.

(** ** What each method does *)

Lemma logError_run (action : string) (error : JsValue) net a :
  run (logError action error) net a =
  match member error "message" with
  | Normal m =>
      {| ending := Returned tt; after := a;
         events := [Console (ErrorLine action (or_else m error))];
         used := 0 |}
  | Thrown x => {| ending := Raised x; after := a; events := []; used := 0 |}
  end.
Proof. destruct error; reflexivity. Qed.

Lemma toggleDevice_run (state : string) net a :
  run (toggleDevice state) net a =
  match net 0%nat with
  | Fulfilled response =>
      {| ending := Returned tt;
         after := set_this (set_toggleState (state =? "ON")) a;
         events := [Console (TogglingDeviceState state);
                    Post (toggleRequest (this a) state);
                    Console (DeviceStateUpdated state);
                    Console (SuccessLine "Device Toggle" response)];
         used := 1 |}
  | Rejected reason =>
      match member reason "message" with
      | Normal m =>
          {| ending := Returned tt; after := a;
             events := [Console (TogglingDeviceState state);
                        Post (toggleRequest (this a) state);
                        Console (ErrorLine "Toggle Error" (or_else m reason))];
             used := 1 |}
      | Thrown x =>
          {| ending := Raised x; after := a;
             events := [Console (TogglingDeviceState state);
                        Post (toggleRequest (this a) state)];
             used := 1 |}
      end
  end.
Proof.
  unfold toggleDevice. cbn.
  destruct (net 0%nat) as [response|reason]; cbn.
  - reflexivity.
  - destruct reason; reflexivity.
Qed.

Lemma sendHeartbeat_run net a :
  run sendHeartbeat net a =
  match net 0%nat with
  | Fulfilled response =>
      {| ending := Returned tt; after := a;
         events := [Console SendingHeartbeat;
                    Post (heartbeatRequest (this a));
                    Console HeartbeatSent;
                    Console (SuccessLine "Heartbeat" response)];
         used := 1 |}
  | Rejected reason =>
      match member reason "message" with
      | Normal m =>
          {| ending := Returned tt; after := a;
             events := [Console SendingHeartbeat;
                        Post (heartbeatRequest (this a));
                        Console (ErrorLine "Heartbeat Error" (or_else m reason))];
             used := 1 |}
      | Thrown x =>
          {| ending := Raised x; after := a;
             events := [Console SendingHeartbeat;
                        Post (heartbeatRequest (this a))];
             used := 1 |}
      end
  end.
Proof.
  unfold sendHeartbeat. cbn.
  destruct (net 0%nat) as [response|reason]; cbn.
  - reflexivity.
  - destruct reason; reflexivity.
Qed.

Lemma ToString_thrown (g : number -> string) :
  forall (v x : JsValue), ToString g v = Thrown x -> x = notPrimitive.
Proof.
  fix IH 1. intros v x.
  destruct v as [| |b|n|s|props|items]; cbn [ToString].
  1-5: try destruct b; discriminate.
  - destruct (hasOwn "toString" props); intros H; inversion H; reflexivity.
  - revert x. induction items as [|y rest IHrest]; intros x; [discriminate|].
    cbn [join].
    destruct (nullish y).
    + destruct rest as [|z rest']; [discriminate|].
      destruct (join _ (z :: rest')) eqn:J.
      * discriminate.
      * intros H. inversion H; subst. apply IHrest. reflexivity.
    + destruct (ToString g y) as [s|e] eqn:E.
      * destruct rest as [|z rest']; [discriminate|].
        destruct (join _ (z :: rest')) eqn:J.
        -- discriminate.
        -- intros H. inversion H; subst. apply IHrest. reflexivity.
      * intros H. inversion H; subst. exact (IH y x E).
Qed.

Lemma ToNumber_thrown (f : string -> number) (g : number -> string)
  (v x : JsValue) :
  ToNumber f g v = Thrown x -> x = notPrimitive.
Proof.
  destruct v as [| |b|n|s|props|items]; cbn [ToNumber].
  1-5: try destruct b; discriminate.
  - destruct (hasOwn "toString" props); intros H; inversion H; reflexivity.
  - destruct (ToString g (JArray items)) as [s|e] eqn:E; [discriminate|].
    intros H. inversion H; subst. exact (ToString_thrown g _ _ E).
Qed.

Lemma sessionEarnings_thrown (f : string -> number) (g : number -> string)
  (u : N) (rate x : JsValue) :
  sessionEarnings f g u rate = Thrown x -> x = notPrimitive.
Proof.
  unfold sessionEarnings.
  destruct (ToNumber f g (or_else rate (JNumber zero))) as [n|e] eqn:E;
    [discriminate|].
  intros H. inversion H; subst. exact (ToNumber_thrown f g _ _ E).
Qed.

Lemma member_field (v : JsValue) (key : string) :
  nullish v = false -> member v key = Normal (field v key).
Proof. unfold field. destruct v; cbn; intros H; try discriminate; reflexivity. Qed.

Arguments ToString : simpl never.
Arguments ToNumber : simpl never.
Arguments sessionEarnings : simpl never.

(** Case analysis on a conversion of the wallet report. *)
Ltac convert_case :=
  match goal with
  | |- context [lift (sessionEarnings ?f ?g ?u ?r)] =>
      let S := fresh "S" in
      destruct (sessionEarnings f g u r) eqn:S;
      [ | apply sessionEarnings_thrown in S; subst ]; cbn
  | |- context [lift (ToString ?g ?v)] =>
      let S := fresh "S" in
      destruct (ToString g v) eqn:S;
      [ | apply ToString_thrown in S; subst ]; cbn
  end.

Section WalletFacts.

Variable StringToNumber : string -> number.
Variable NumberToString : number -> string.

(** The wallet call sends one request and prints; it never touches the
    agent.  With a falsy [error] and an object under [details] the
    report is printed line by line until a field cannot be converted;
    the conversion's TypeError is caught and logged. *)
Lemma getWalletDetails_run net a :
  exists e lines,
    run (getWalletDetails StringToNumber NumberToString) net a =
    {| ending := e; after := a;
       events := Post (walletRequest (this a)) :: lines; used := 1 |} /\
    operations lines = [] /\
    (e = Returned tt \/
     (exists msg, e = Raised (TypeError msg)) /\
     ordinary (net 0%nat) = false) /\
    match net 0%nat with
    | Fulfilled response =>
        e = Returned tt /\
        (truthy (field response "error") = false ->
         nullish (field response "details") = false ->
         let details := field response "details" in
         lines =
         match sessionEarnings StringToNumber NumberToString
                 (uptimeMinutes (this a))
                 (field details "activeRatePerMinute") with
         | Thrown _ => [conversionFailure]
         | Normal earnings =>
             Console (WalletDetailsFor (walletAddress (account (this a)))) ::
             match ToString NumberToString (field details "totalEarnings") with
             | Thrown _ => [conversionFailure]
             | Normal total =>
                 Console (TotalEarnings total) ::
                 match ToString NumberToString
                         (field details "todayEarnings") with
                 | Thrown _ => [conversionFailure]
                 | Normal today =>
                     Console (TodayEarnings today) ::
                     match ToString NumberToString
                             (field details "activeRatePerMinute") with
                     | Thrown _ => [conversionFailure]
                     | Normal rate =>
                         [Console (ActiveRate rate);
                          Console (EstimatedSessionEarnings
                                     (toFixed4 NumberToString earnings))]
                     end
                 end
             end
         end) /\
        (truthy (field response "error") = true \/
         nullish (field response "details") = true ->
         existsb isEarningsLine lines = false)
    | Rejected reason =>
        existsb isEarningsLine lines = false /\
        match member reason "message" with
        | Normal m => e = Returned tt
        | Thrown x => e = Raised x
        end
    end.
Proof.
  unfold getWalletDetails, logWalletDetails, logError. cbn.
  destruct (net 0%nat) as [response|reason]; cbn.
  - destruct response as [| |b|x|s|props|items]; cbn.
    1-5, 7: do 2 eexists; repeat split; intros; try reflexivity;
            try discriminate; left; reflexivity.
    unfold field; cbn.
    destruct (truthy match lookup "error" props with
                     | Some x => x
                     | None => JUndefined
                     end) eqn:E; cbn.
    + do 2 eexists; repeat split; intros; try reflexivity;
        try discriminate; left; reflexivity.
    + destruct (match lookup "details" props with
                | Some x => x
                | None => JUndefined
                end) as [| |b|x|s|dprops|ditems] eqn:D; cbn.
      1-2: do 2 eexists; repeat split; intros; try reflexivity;
           try discriminate; try (left; reflexivity);
           match goal with
           | H : _ \/ _ |- _ => destruct H; discriminate
           end.
      all: repeat convert_case.
      all: do 2 eexists; repeat split; intros; try reflexivity;
           try discriminate; try (left; reflexivity);
           match goal with
           | H : _ \/ _ |- _ => destruct H; discriminate
           end.
  - destruct reason; cbn; do 2 eexists; repeat split;
      try reflexivity;
      first [left; reflexivity
            | right; split; [eexists; reflexivity | reflexivity]].
Qed.

End WalletFacts.

Arguments toggleDevice : simpl never.
Arguments sendHeartbeat : simpl never.
Arguments getWalletDetails : simpl never.
Arguments logError : simpl never.

(** Case analysis on how a request of a tick settles. *)
Ltac settle_case lem :=
  rewrite lem;
  match goal with
  | |- context [match ?n ?i with Fulfilled _ => _ | Rejected _ => _ end] =>
      let response := fresh "response" in
      let reason := fresh "reason" in
      let E := fresh "E" in
      destruct (n i) as [response|reason] eqn:E;
      [ | let M := fresh "M" in destruct (member reason "message") eqn:M ]
  end.

Ltac wallet_case :=
  match goal with
  | |- context [run (getWalletDetails ?f ?g) ?n ?x] =>
      let e := fresh "e" in
      let lines := fresh "lines" in
      let R := fresh "R" in
      let L := fresh "L" in
      let W := fresh "W" in
      let O := fresh "O" in
      destruct (getWalletDetails_run f g n x) as (e & lines & R & L & O & W);
      rewrite R; clear R
  end.

(** A rejection whose reason cannot be read for its [message] is not an
    ordinary one, and what the read throws is a TypeError. *)
Lemma settled_thrown (net : Network) (i : nat) reason x :
  net i = Rejected reason -> member reason "message" = Thrown x ->
  (exists msg, x = TypeError msg) /\ exists j, ordinary (net j) = false.
Proof.
  intros E M. apply member_thrown in M as [N [msg ->]]. split; [eauto|].
  exists i. rewrite E. cbn. rewrite N. reflexivity.
Qed.

Lemma toggle_in_operations (state : string) (evs : list Event) :
  In (ToggleCall state) (operations evs) ->
  existsb (isToggle state) evs = true.
Proof.
  induction evs as [|ev evs IH]; cbn; [tauto|].
  destruct ev as [l|rq| | | |]; cbn; auto.
  - destruct l; cbn; auto. intros [H|H]; [discriminate|auto].
  - destruct (json rq) eqn:J; cbn.
    + intros [H|H].
      * inversion H; subst. rewrite String.eqb_refl. reflexivity.
      * rewrite IH by assumption. apply orb_true_r.
    + intros [H|H]; [discriminate|auto].
    + intros [H|H]; [discriminate|auto].
Qed.

Section TickFacts.

Variable StringToNumber : string -> number.
Variable NumberToString : number -> string.

(** One tick, whatever the network answers.  The [try] body counts the
    tick, possibly re-toggles, and goes through its calls in the order
    of [tickPlan] until one of them throws, which takes a rejection
    with no error value; the [catch] then marks the device off.  The
    callback itself always returns. *)
Lemma timerCallback_run net a :
  exists e evs u a',
    run (timerBody StringToNumber NumberToString) net a =
    {| ending := e; after := a'; events := evs; used := u |} /\
    (a' = bumped a \/
     toggleState (this a) = false /\ (exists r, net 0%nat = Fulfilled r) /\
     a' = set_this (set_toggleState true) (bumped a)) /\
    (e = Returned tt \/
     (exists msg, e = Raised (TypeError msg)) /\
     exists i, ordinary (net i) = false) /\
    (exists rest, tickPlan (this a) = (operations evs ++ rest)%list /\
                  (e = Returned tt -> rest = [])) /\
    (toggleState (this a) = false ->
     exists before later_on,
       evs = (before ++
              Post (toggleRequest (this (bumped a)) "ON") :: later_on)%list /\
       operations before = []) /\
    run (timerCallback StringToNumber NumberToString) net a =
    match e with
    | Raised x =>
        {| ending := Returned tt;
           after := set_this (set_toggleState false) a';
           events := evs ++
                     [Console HeartbeatStopped;
                      Console (ErrorLine "Heartbeat Cycle"
                                 (or_else (field x "message") x))];
           used := u |}
    | _ => {| ending := Returned tt; after := a'; events := evs; used := u |}
    end.
Proof.
  unfold timerCallback. rewrite run_try_catch.
  unfold timerBody, tickPlan. cbn.
  destruct (_ =? 0)%N; cbn;
    (destruct (toggleState (this a)) eqn:T; cbn;
     [ | rewrite run_bind; settle_case toggleDevice_run; cbn ]).
  all: try (rewrite run_bind; settle_case sendHeartbeat_run; cbn).
  all: try (rewrite run_bind; wallet_case; cbn;
            destruct O as [-> | [[msg ->] O]]; cbn).
  all: repeat match goal with
         | E : ?n ?i = Rejected ?reason,
           M : member ?reason "message" = Thrown _ |- _ =>
             destruct (settled_thrown n i _ _ E M) as [[? ->] ?]; clear M
         end.
  all: rewrite ?logError_run; cbn.
  all: do 4 eexists; split; [reflexivity|].
  all: cbn; rewrite ?operations_app; cbn; rewrite ?L; cbn.
  all: split; [first [left; reflexivity | right; repeat split; eauto] |].
  all: split; [first [left; reflexivity
                     | right; split; [eauto|]; unfold later in *;
                       repeat match goal with
                              | H : exists _, _ |- _ => destruct H
                              end; eauto] |].
  all: split; [eexists; split;
                 [reflexivity
                 | intros; first [reflexivity | discriminate]] |].
  all: split; [|reflexivity].
  all: intros Off; try discriminate Off.
  all: first [ exists [Console ServiceWorkerWakeUp;
                       Console (TogglingDeviceState "ON")];
               eexists; split; reflexivity
             | exists [Console (TogglingDeviceState "ON")];
               eexists; split; reflexivity ].
Qed.

End TickFacts.

(** ** Proxy strings *)

Lemma prefix_http_formatProxy (p : string) :
  prefix "http" (formatProxy p) = true.
Proof.
  unfold formatProxy. destruct (prefix "http" p) eqn:E; [exact E|reflexivity].
Qed.

(** C9, as stated, fails in both directions: a proxy that carries a scheme
    other than http(s) is still prefixed, and a schemeless host whose name
    begins with "http" is not. *)
Lemma formatProxy_scheme_counterexample :
  (hasScheme "socks5://10.0.0.1:1080" = true /\
   formatProxy "socks5://10.0.0.1:1080" = "http://socks5://10.0.0.1:1080") /\
  (hasScheme "httpbin.org:8080" = false /\
   formatProxy "httpbin.org:8080" = "httpbin.org:8080").
Proof. repeat split. Qed.

(** C9, amended: [formatProxy] looks at the first four characters only.
    A proxy string that does not begin with "http" gets "http://" in
    front; one that begins with "http" -- every http:// and https:// URL
    among them -- is used unchanged.  So the result always begins with
    "http", formatting twice changes nothing, and this is the string the
    constructor stores for a non-empty proxy argument. *)
Theorem formatProxy_by_http_prefix (acct : Account) (p : string) :
  (prefix "http" p = false -> formatProxy p = "http://" ++ p) /\
  (prefix "http" p = true -> formatProxy p = p) /\
  formatProxy ("http://" ++ p) = "http://" ++ p /\
  formatProxy ("https://" ++ p) = "https://" ++ p /\
  formatProxy (formatProxy p) = formatProxy p /\
  (p <> "" ->
   proxyConfig (fst (constructor acct (Some p))) = Some (formatProxy p)).
Proof.
  repeat split.
  - intros E. unfold formatProxy. rewrite E. reflexivity.
  - intros E. unfold formatProxy. rewrite E. reflexivity.
  - unfold formatProxy at 1. rewrite (prefix_http_formatProxy p). reflexivity.
  - intros NE. cbn. destruct p as [|c p]; [contradiction|reflexivity].
Qed.

Lemma formatProxy_by_http_prefix_witness :
  formatProxy "10.0.0.1:8080" = "http://10.0.0.1:8080" /\
  formatProxy "https://proxy.example:443" = "https://proxy.example:443" /\
  proxyConfig (fst (constructor acctA (Some "10.0.0.1:8080"))) =
  Some "http://10.0.0.1:8080".
Proof.
  destruct (formatProxy_by_http_prefix acctA "10.0.0.1:8080")
    as (H1 & _ & _ & _ & _ & H6).
  destruct (formatProxy_by_http_prefix acctA "https://proxy.example:443")
    as (_ & H2 & _).
  split; [apply H1; reflexivity|].
  split; [apply H2; reflexivity|].
  apply H6. discriminate.
Defined.

(** ** Toggling *)

(** C3, as stated, fails for an error the API reports in a 2xx body: the
    bot is on, asks for OFF, the body says [error: true], and the device
    is marked off and success is printed. *)
Lemma toggle_api_error_counterexample :
  let a := agentOf botA in
  let o := Fulfilled (JObject [("error", JBool true);
                               ("message", JString "Device not found")]) in
  let r := run (toggleDevice "OFF") (fun _ => o) a in
  toggleFailed o = true /\
  toggleState (this a) = true /\
  toggleState (this (after r)) = false /\
  existsb (fun ev => match ev with
                     | Console (ErrorLine _ _) => true
                     | _ => false
                     end) (events r) = false.
Proof. repeat split. Qed.

(** C3, amended: what decides is how the promise settles, not what the
    body says.  Fulfilled (any 2xx body, one that reports an error
    included): [toggleState] becomes [state === "ON"] and success is
    printed with the raw response.  Rejected (network error, non-2xx):
    [toggleState] keeps its value, and when the reason is an error value
    the error is printed and nothing is thrown. *)
Theorem toggleDevice_outcome (state : string) (net : Network) (a : Agent) :
  let r := run (toggleDevice state) net a in
  In (Post (toggleRequest (this a) state)) (events r) /\
  match net 0%nat with
  | Fulfilled response =>
      toggleState (this (after r)) = (state =? "ON") /\
      In (Console (SuccessLine "Device Toggle" response)) (events r) /\
      ending r = Returned tt
  | Rejected reason =>
      toggleState (this (after r)) = toggleState (this a) /\
      (nullish reason = false ->
       In (Console (ErrorLine "Toggle Error"
                      (or_else (field reason "message") reason)))
          (events r) /\
       ending r = Returned tt)
  end.
Proof.
  cbv zeta. rewrite toggleDevice_run.
  destruct (net 0%nat) as [response|reason].
  - cbn. intuition.
  - destruct (member reason "message") as [m|x] eqn:M.
    + apply member_normal in M as [_ ->]. cbn. intuition.
    + apply member_thrown in M as [N _]. cbn. split; [intuition|].
      split; [reflexivity|]. rewrite N. discriminate.
Qed.

Lemma toggleDevice_outcome_witness :
  let reason := JObject [("message", JString "ECONNRESET")] in
  let a := agentOf botA in
  let r := run (toggleDevice "OFF") (fun _ => Rejected reason) a in
  toggleState (this (after r)) = true /\
  In (Console (ErrorLine "Toggle Error" (JString "ECONNRESET"))) (events r) /\
  ending r = Returned tt.
Proof.
  intros reason a r.
  destruct (toggleDevice_outcome "OFF" (fun _ => Rejected reason) a)
    as (_ & H1 & H2).
  split; [exact H1|]. apply H2. reflexivity.
Defined.

(** ** The wallet report *)

(** The arithmetic is binary64: three minutes at the double nearest 0.1
    give 0.30000000000000004, printed as 0.3000. *)
Example three_tenths :
  let tenth := S754_finite false 7205759403792794 (-56) in
  mul (of_N 3) tenth = S754_finite false 5404319552844596 (-54) /\
  toFixed4 noLargeNumber (mul (of_N 3) tenth) = "0.3000".
Proof. split; vm_compute; reflexivity. Qed.

Lemma toFixed4_times_zero (f : number -> string) (u : N) :
  toFixed4 f (mul (of_N u) zero) = "0.0000".
Proof. destruct u; reflexivity. Qed.

Lemma earnings_line_found (amount : string) (lines : list Event) :
  In (Console (EstimatedSessionEarnings amount)) lines ->
  existsb isEarningsLine lines = true.
Proof.
  intros H. apply existsb_exists. eexists. split; [exact H|reflexivity].
Qed.

(** A falsy value is a primitive: it has a string. *)
Lemma falsy_ToString (g : number -> string) (v : JsValue) :
  truthy v = false -> exists s, ToString g v = Normal s.
Proof.
  destruct v as [| |b|x|s|props|items]; cbn; intros F; try discriminate;
    try (eexists; reflexivity).
  subst b. eexists. reflexivity.
Qed.

Section EarningsFacts.

Variable StringToNumber : string -> number.
Variable NumberToString : number -> string.

(** A falsy rate is replaced by 0 before the product is taken. *)
Lemma sessionEarnings_falsy (u : N) (rate : JsValue) :
  truthy rate = false ->
  sessionEarnings StringToNumber NumberToString u rate
  = Normal (mul (of_N u) zero).
Proof.
  intros F. unfold sessionEarnings, or_else. rewrite F. reflexivity.
Qed.

(** For a numeric rate the printed amount is that of the product: a
    zero rate is replaced by 0, which prints the same. *)
Lemma toFixed4_sessionEarnings (u : N) (rate : number) :
  is_nan rate = false ->
  exists earnings,
    sessionEarnings StringToNumber NumberToString u (JNumber rate)
    = Normal earnings /\
    toFixed4 NumberToString earnings =
    toFixed4 NumberToString (mul (of_N u) rate).
Proof.
  intros NN. destruct rate as [s|s| |s m e]; try discriminate.
  - rewrite sessionEarnings_falsy by reflexivity. eexists. split; [reflexivity|].
    rewrite toFixed4_times_zero. destruct u; reflexivity.
  - eexists. split; reflexivity.
  - eexists. split; reflexivity.
Qed.

(** The whole report: every conversion gives a value. *)
Lemma full_report net a response earnings (total today rate : string) :
  net 0%nat = Fulfilled response ->
  truthy (field response "error") = false ->
  nullish (field response "details") = false ->
  let details := field response "details" in
  sessionEarnings StringToNumber NumberToString (uptimeMinutes (this a))
    (field details "activeRatePerMinute") = Normal earnings ->
  ToString NumberToString (field details "totalEarnings") = Normal total ->
  ToString NumberToString (field details "todayEarnings") = Normal today ->
  ToString NumberToString (field details "activeRatePerMinute") = Normal rate ->
  run (getWalletDetails StringToNumber NumberToString) net a =
  {| ending := Returned tt; after := a;
     events := Post (walletRequest (this a)) ::
               walletReport (this a) total today rate
                 (toFixed4 NumberToString earnings);
     used := 1 |}.
Proof.
  intros N0 E D details S T1 T2 T3.
  destruct (getWalletDetails_run StringToNumber NumberToString net a)
    as (e & lines & -> & _ & _ & W).
  rewrite N0 in W. destruct W as (-> & Report & _).
  rewrite (Report E D). cbv zeta. fold details.
  rewrite S, T1, T2, T3. reflexivity.
Qed.

(** A report cut short: some conversion throws.  The TypeError is
    caught and logged, and the amount is never printed. *)
Lemma failed_report net a response :
  net 0%nat = Fulfilled response ->
  truthy (field response "error") = false ->
  nullish (field response "details") = false ->
  let details := field response "details" in
  (exists x,
      sessionEarnings StringToNumber NumberToString (uptimeMinutes (this a))
        (field details "activeRatePerMinute") = Thrown x \/
      ToString NumberToString (field details "totalEarnings") = Thrown x \/
      ToString NumberToString (field details "todayEarnings") = Thrown x) ->
  let r := run (getWalletDetails StringToNumber NumberToString) net a in
  existsb isEarningsLine (events r) = false /\
  last (events r) (Post (walletRequest (this a))) = conversionFailure.
Proof.
  intros N0 E D details Bad. cbv zeta.
  destruct (getWalletDetails_run StringToNumber NumberToString net a)
    as (e & lines & -> & _ & _ & W).
  rewrite N0 in W. destruct W as (-> & Report & _).
  rewrite (Report E D). cbv zeta. fold details. cbn [events].
  destruct Bad as (x & Bad).
  destruct (sessionEarnings _ _ _ _) as [earnings|y]; [|split; reflexivity].
  destruct (ToString _ (field details "totalEarnings")) as [total|y];
    [|split; reflexivity].
  destruct (ToString _ (field details "todayEarnings")) as [today|y];
    [|split; reflexivity].
  destruct Bad as [Bad|[Bad|Bad]]; discriminate Bad.
Qed.

(** An amount is printed only at the end of a whole report. *)
Lemma reported_amount net a (amount : string) :
  In (Console (EstimatedSessionEarnings amount))
     (events (run (getWalletDetails StringToNumber NumberToString) net a)) ->
  exists response earnings,
    net 0%nat = Fulfilled response /\
    truthy (field response "error") = false /\
    nullish (field response "details") = false /\
    sessionEarnings StringToNumber NumberToString (uptimeMinutes (this a))
      (field (field response "details") "activeRatePerMinute")
    = Normal earnings /\
    amount = toFixed4 NumberToString earnings.
Proof.
  destruct (getWalletDetails_run StringToNumber NumberToString net a)
    as (e & lines & -> & _ & _ & W).
  cbn [events]. intros [H|H]; [discriminate H|].
  pose proof (earnings_line_found _ _ H) as Found.
  destruct (net 0%nat) as [response|reason].
  2:{ destruct W as [W _]. congruence. }
  destruct W as (_ & Report & NoReport).
  destruct (truthy (field response "error")) eqn:E.
  { rewrite NoReport in Found by (left; reflexivity). discriminate. }
  destruct (nullish (field response "details")) eqn:D.
  { rewrite NoReport in Found by (right; reflexivity). discriminate. }
  specialize (Report eq_refl eq_refl). cbv zeta in Report.
  exists response.
  destruct (sessionEarnings _ _ _ _) as [earnings|y].
  2:{ subst lines. discriminate Found. }
  exists earnings. repeat split; try reflexivity; try assumption.
  destruct (ToString _ (field _ "totalEarnings")) as [total|y].
  2:{ subst lines. discriminate Found. }
  destruct (ToString _ (field _ "todayEarnings")) as [today|y].
  2:{ subst lines. discriminate Found. }
  destruct (ToString _ (field _ "activeRatePerMinute")) as [rate|y].
  2:{ subst lines. discriminate Found. }
  subst lines. cbn in H.
  repeat (destruct H as [H|H]; [try discriminate H|]); try contradiction.
  inversion H. reflexivity.
Qed.

(** C5: whenever [getWalletDetails] prints an estimated amount, the
    body's [error] is falsy and the amount is [uptimeMinutes] times the
    number of [activeRatePerMinute || 0], with four decimals.  For a
    numeric rate and fields that have a string this is the product with
    the rate itself, at the end of the five-line report.  After 4
    minutes and the scenario's body with rate 0.5 the line reads
    2.0000. *)
Theorem estimated_session_earnings (net : Network) (a : Agent) :
  let r := run (getWalletDetails StringToNumber NumberToString) net a in
  let uptime := of_N (uptimeMinutes (this a)) in
  (forall amount,
      In (Console (EstimatedSessionEarnings amount)) (events r) ->
      exists response rate,
        net 0%nat = Fulfilled response /\
        truthy (field response "error") = false /\
        ToNumber StringToNumber NumberToString
          (or_else (field (field response "details") "activeRatePerMinute")
             (JNumber zero)) = Normal rate /\
        amount = toFixed4 NumberToString (mul uptime rate)) /\
  (forall response rate total today,
      net 0%nat = Fulfilled response ->
      truthy (field response "error") = false ->
      field (field response "details") "activeRatePerMinute" = JNumber rate ->
      is_nan rate = false ->
      ToString NumberToString
        (field (field response "details") "totalEarnings") = Normal total ->
      ToString NumberToString
        (field (field response "details") "todayEarnings") = Normal today ->
      events r =
      Post (walletRequest (this a)) ::
      walletReport (this a) total today (NumberToString rate)
        (toFixed4 NumberToString (mul uptime rate))) /\
  In (Console (EstimatedSessionEarnings "2.0000"))
     (events
        (run (getWalletDetails StringToNumber NumberToString)
           (fun _ => Fulfilled scenarioResponse)
           (agentOf (set_uptimeMinutes 4 botA)))).
Proof.
  cbv zeta. split; [|split].
  - intros amount H.
    destruct (reported_amount net a amount H)
      as (response & earnings & N0 & E & _ & S & ->).
    unfold sessionEarnings in S.
    destruct (ToNumber _ _ _) as [rate|y] eqn:R; [|discriminate S].
    inversion S; subst. exists response, rate. repeat split; assumption.
  - intros response rate total today N0 E Rate NN T1 T2.
    assert (D : nullish (field response "details") = false).
    { destruct (field response "details"); try reflexivity;
        discriminate Rate. }
    destruct (toFixed4_sessionEarnings (uptimeMinutes (this a)) rate NN)
      as (earnings & S & <-).
    rewrite <- Rate in S.
    rewrite (full_report net a response earnings total today
               (NumberToString rate) N0 E D S T1 T2);
      [reflexivity|].
    rewrite Rate. reflexivity.
  - rewrite (full_report (fun _ => Fulfilled scenarioResponse)
               (agentOf (set_uptimeMinutes 4 botA)) scenarioResponse
               (mul (of_N 4) half)
               (NumberToString ten) (NumberToString two)
               (NumberToString half));
      try reflexivity.
    vm_compute. auto 10.
Qed.

(** C10, as stated, fails: a missing rate does not keep the report
    from throwing.  With [details = {totalEarnings: {toString: 1}}] the
    template literal of the total cannot convert its field; the call
    prints the heading and the error line, and no amount. *)
Lemma missing_rate_exception_counterexample :
  let response :=
    JObject [("error", JBool false);
             ("details",
              JObject [("totalEarnings",
                        JObject [("toString", JNumber one)])])] in
  let a := agentOf (set_uptimeMinutes 7 botA) in
  let r := run (getWalletDetails noStringNumber noLargeNumber)
             (fun _ => Fulfilled response) a in
  truthy (field response "error") = false /\
  truthy (field (field response "details") "activeRatePerMinute") = false /\
  events r = [Post (walletRequest (this a));
              Console (WalletDetailsFor "0xA");
              conversionFailure] /\
  existsb isEarningsLine (events r) = false.
Proof. repeat split. Qed.

(** C10, amended: with a falsy [error] and a [details] object whose
    [activeRatePerMinute] is missing or falsy, the call returns normally
    and the amount is [uptimeMinutes] times 0: no amount other than
    0.0000 is ever printed.  When [totalEarnings] and [todayEarnings]
    have strings the report is printed whole and ends with 0.0000;
    when one of them has none, the TypeError is logged and no amount is
    printed. *)
Theorem missing_rate_reports_zero (net : Network) (a : Agent)
  (response : JsValue) :
  net 0%nat = Fulfilled response ->
  truthy (field response "error") = false ->
  nullish (field response "details") = false ->
  truthy (field (field response "details") "activeRatePerMinute") = false ->
  let r := run (getWalletDetails StringToNumber NumberToString) net a in
  let details := field response "details" in
  ending r = Returned tt /\
  sessionEarnings StringToNumber NumberToString (uptimeMinutes (this a))
    (field details "activeRatePerMinute")
  = Normal (mul (of_N (uptimeMinutes (this a))) zero) /\
  (forall amount,
      In (Console (EstimatedSessionEarnings amount)) (events r) ->
      amount = "0.0000") /\
  match ToString NumberToString (field details "totalEarnings"),
        ToString NumberToString (field details "todayEarnings") with
  | Normal total, Normal today =>
      exists rate,
        ToString NumberToString (field details "activeRatePerMinute")
        = Normal rate /\
        events r =
        Post (walletRequest (this a)) ::
        walletReport (this a) total today rate "0.0000"
  | _, _ =>
      existsb isEarningsLine (events r) = false /\
      last (events r) (Post (walletRequest (this a))) = conversionFailure
  end.
Proof.
  intros N0 E D F. cbv zeta.
  pose proof (sessionEarnings_falsy (uptimeMinutes (this a)) _ F) as S.
  split; [|split; [exact S|split]].
  - destruct (getWalletDetails_run StringToNumber NumberToString net a)
      as (e & lines & -> & _ & _ & W).
    rewrite N0 in W. destruct W as (-> & _). reflexivity.
  - intros amount H.
    destruct (reported_amount net a amount H)
      as (response' & earnings & N0' & _ & _ & S' & ->).
    rewrite N0 in N0'. inversion N0'; subst response'.
    rewrite S in S'. inversion S'; subst.
    apply toFixed4_times_zero.
  - destruct (ToString NumberToString
                (field (field response "details") "totalEarnings"))
      as [total|x] eqn:T1.
    2:{ apply (failed_report net a response N0 E D). exists x. auto. }
    destruct (ToString NumberToString
                (field (field response "details") "todayEarnings"))
      as [today|x] eqn:T2.
    2:{ apply (failed_report net a response N0 E D). exists x. auto. }
    destruct (falsy_ToString NumberToString _ F) as [rate T3].
    exists rate. split; [exact T3|].
    rewrite (full_report net a response _ total today rate N0 E D S T1 T2 T3).
    rewrite toFixed4_times_zero. reflexivity.
Qed.

End EarningsFacts.

Lemma estimated_session_earnings_witness :
  In (Console (EstimatedSessionEarnings "1.2000"))
     (events
        (run (getWalletDetails noStringNumber noLargeNumber)
           (fun _ => Fulfilled
                       (JObject
                          [("details",
                            JObject [("activeRatePerMinute",
                                      JNumber (S754_finite false
                                                 5404319552844595 (-54)))])]))
           (agentOf (set_uptimeMinutes 4 botA)))).
Proof.
  destruct (estimated_session_earnings noStringNumber noLargeNumber
              (fun _ => Fulfilled
                          (JObject
                             [("details",
                               JObject [("activeRatePerMinute",
                                         JNumber (S754_finite false
                                                    5404319552844595 (-54)))])]))
              (agentOf (set_uptimeMinutes 4 botA))) as (_ & H & _).
  rewrite (H _ _ "undefined" "undefined" eq_refl eq_refl eq_refl eq_refl
             eq_refl eq_refl).
  vm_compute. auto 10.
Defined.

Lemma missing_rate_reports_zero_witness :
  let response :=
    JObject [("error", JBool false);
             ("details", JObject [("totalEarnings", JNumber ten)])] in
  let r := run (getWalletDetails noStringNumber noLargeNumber)
             (fun _ => Fulfilled response)
             (agentOf (set_uptimeMinutes 7 botA)) in
  ending r = Returned tt /\
  In (Console (EstimatedSessionEarnings "0.0000")) (events r).
Proof.
  intros response r.
  destruct (missing_rate_reports_zero noStringNumber noLargeNumber
              (fun _ => Fulfilled response)
              (agentOf (set_uptimeMinutes 7 botA)) response
              eq_refl eq_refl eq_refl eq_refl) as (H1 & _ & _ & H2).
  split; [exact H1|].
  destruct H2 as (rate & _ & H2). unfold r. rewrite H2. cbn. auto 10.
Defined.

(** ** The opening and the timer *)

(** [startHeartbeatCycle] always issues the ON toggle, never rejects and
    does not count a tick; with ordinary settlements it ends with the
    interval set and the SIGINT listener registered. *)
Lemma startHeartbeatCycle_run net a :
  exists evs u a',
    run startHeartbeatCycle net a =
    {| ending := Returned tt; after := a'; events := evs; used := u |} /\
    uptimeMinutes (this a') = uptimeMinutes (this a) /\
    existsb (isToggle "ON") evs = true /\
    ((forall i, ordinary (net i) = true) ->
     timer a' = true /\ sigint a' = true).
Proof.
  unfold startHeartbeatCycle. rewrite run_try_catch.
  rewrite run_bind. settle_case toggleDevice_run; cbn.
  all: try (rewrite run_bind; settle_case sendHeartbeat_run; cbn).
  all: repeat match goal with
         | E : ?n ?i = Rejected ?reason,
           M : member ?reason "message" = Thrown _ |- _ =>
             destruct (settled_thrown n i _ _ E M) as [[? ->] [j NO]];
             clear M
         end.
  all: rewrite ?logError_run; cbn.
  all: do 3 eexists; split; [reflexivity|]; cbn.
  all: split; [reflexivity|]; split; [reflexivity|].
  all: intros O; try (split; reflexivity).
  all: unfold later in *; rewrite O in NO; discriminate.
Qed.

Section TimerTheorems.

Variable StringToNumber : string -> number.
Variable NumberToString : number -> string.

Lemma deliver_tick (net : Network) (p : Process) :
  liveness p = Running -> timer (agent p) = true ->
  let p' := deliver StringToNumber NumberToString net p Tick in
  liveness p' = Running /\ timer (agent p') = true /\
  uptimeMinutes (this (agent p')) = (uptimeMinutes (this (agent p)) + 1)%N.
Proof.
  intros L T. unfold deliver, exec. rewrite L, T.
  destruct (timerCallback_run StringToNumber NumberToString
              (later (answered p) net) (agent p))
    as (e & evs & u & a' & _ & A & _ & _ & _ & ->).
  assert (timer a' = true /\
          uptimeMinutes (this a') = (uptimeMinutes (this (agent p)) + 1)%N)
    as [T' U'].
  { destruct A as [-> | (_ & _ & ->)]; cbn; auto. }
  destruct e; cbn; auto.
Qed.

(** C1, as stated, fails at the start: the constructor sets
    [toggleState] to [true] (it is never undefined), and this before any
    toggle call has been issued. *)
Lemma toggleState_initial_counterexample :
  toggleState (this (agent (created acctA None))) = true /\
  existsb (isToggle "ON") (output (created acctA None)) = false.
Proof. split; reflexivity. Qed.

(** C1, amended: [toggleState] is [true] from construction.  After that,
    in each of the three entry points (the opening, the timer callback,
    the SIGINT listener) it goes from [false] to [true] only when an ON
    toggle request was sent in that run, and a tick whose [try] body
    throws leaves it [false]. *)
Theorem toggleState_transitions (acct : Account) (proxyArg : option string)
  (net : Network) (a : Agent) :
  toggleState (fst (constructor acct proxyArg)) = true /\
  (forall t,
      In t [startHeartbeatCycle;
            timerCallback StringToNumber NumberToString;
            sigintListener] ->
      toggleState (this a) = false ->
      toggleState (this (after (run t net a))) = true ->
      existsb (isToggle "ON") (events (run t net a)) = true) /\
  match ending (run (timerBody StringToNumber NumberToString) net a) with
  | Raised _ =>
      toggleState
        (this (after (run (timerCallback StringToNumber NumberToString)
                        net a))) = false
  | _ => True
  end.
Proof.
  split; [reflexivity|]. split.
  - intros t [<- | [<- | [<- | []]]] Off On.
    + destruct (startHeartbeatCycle_run net a)
        as (evs & u & a' & -> & _ & Sent & _).
      exact Sent.
    + destruct (timerCallback_run StringToNumber NumberToString net a)
        as (e & evs & u & a' & _ & A & _ & _ & First & R).
      rewrite R in On |- *.
      assert (Sent : existsb (isToggle "ON") evs = true).
      { destruct (First Off) as (before & later_on & -> & _).
        rewrite existsb_app. cbn. apply orb_true_r. }
      destruct e; cbn in *; try exact Sent.
      rewrite existsb_app, Sent. reflexivity.
    + exfalso. revert On. unfold sigintListener. cbn.
      rewrite run_bind, toggleDevice_run.
      destruct (net 0%nat) as [response|reason];
        [|destruct (member reason "message")]; cbn;
        rewrite ?Off; discriminate.
  - destruct (timerCallback_run StringToNumber NumberToString net a)
      as (e & evs & u & a' & -> & _ & _ & _ & _ & ->).
    destruct e; cbn; auto.
Qed.


(** C4: no settlement of a request makes the callback reject or clears
    the interval, so the next tick fires; when every settlement is an
    ordinary one (a body, or a rejection with an error value) every call
    of the tick is made, failed or not; and when the [try] body does
    throw, the [catch] prints the two lines and marks the device off. *)
Theorem failures_do_not_stop_the_cycle (net : Network) (a : Agent) :
  let r := run (timerCallback StringToNumber NumberToString) net a in
  ending r = Returned tt /\
  timer (after r) = timer a /\
  ((forall i, ordinary (net i) = true) ->
   operations (events r) = tickPlan (this a)) /\
  match ending (run (timerBody StringToNumber NumberToString) net a) with
  | Raised x =>
      toggleState (this (after r)) = false /\
      In (Console HeartbeatStopped) (events r) /\
      In (Console (ErrorLine "Heartbeat Cycle"
                     (or_else (field x "message") x))) (events r)
  | _ => True
  end /\
  (forall p, liveness p = Running -> timer (agent p) = true ->
             let p' := deliver StringToNumber NumberToString net p Tick in
             liveness p' = Running /\ timer (agent p') = true).
Proof.
  cbv zeta.
  destruct (timerCallback_run StringToNumber NumberToString net a)
    as (e & evs & u & a' & -> & A & En & (rest & Plan & Whole) & _ & ->).
  assert (T' : timer a' = timer a).
  { destruct A as [-> | (_ & _ & ->)]; reflexivity. }
  repeat split.
  - destruct e; reflexivity.
  - destruct e; cbn; exact T'.
  - intros O. destruct En as [-> | [_ [i NO]]].
    + cbn. rewrite Plan, (Whole eq_refl), app_nil_r. reflexivity.
    + rewrite O in NO. discriminate.
  - destruct e; cbn; auto. repeat split.
    + apply in_or_app. right. left. reflexivity.
    + apply in_or_app. right. right. left. reflexivity.
  - apply (deliver_tick net p); assumption.
  - apply (deliver_tick net p); assumption.
Qed.

(** C6: the operations of a tick are an initial segment of the plan
    (re-toggle if marked off, heartbeat, wallet details, uptime line),
    in that order; the whole plan when the settlements are ordinary; and
    when the device is marked off at the start, the ON toggle is the
    first operation, so it comes before the heartbeat. *)
Theorem tick_order (net : Network) (a : Agent) :
  let ops :=
    operations (events (run (timerCallback StringToNumber NumberToString)
                          net a)) in
  (exists rest, tickPlan (this a) = (ops ++ rest)%list) /\
  ((forall i, ordinary (net i) = true) -> ops = tickPlan (this a)) /\
  (toggleState (this a) = false ->
   hd_error ops = Some (ToggleCall "ON") /\
   exists before later_on,
     events (run (timerCallback StringToNumber NumberToString) net a) =
     (before ++ Post (toggleRequest (this (bumped a)) "ON") :: later_on)%list
     /\ operations before = []).
Proof.
  cbv zeta.
  destruct (timerCallback_run StringToNumber NumberToString net a)
    as (e & evs & u & a' & Body & A & En & (rest & Plan & Whole) & First & ->).
  assert (Ops : operations
                  (events
                     match e with
                     | Raised x =>
                         {| ending := Returned tt;
                            after := set_this (set_toggleState false) a';
                            events :=
                              evs ++
                              [Console HeartbeatStopped;
                               Console (ErrorLine "Heartbeat Cycle"
                                          (or_else (field x "message") x))];
                            used := u |}
                     | _ => {| ending := Returned tt; after := a';
                               events := evs; used := u |}
                     end) = operations evs).
  { destruct e; cbn; try reflexivity.
    rewrite operations_app. cbn. apply app_nil_r. }
  rewrite Ops. split; [|split].
  - exists rest. exact Plan.
  - intros O. destruct En as [-> | [_ [i NO]]].
    + rewrite Plan, (Whole eq_refl), app_nil_r. reflexivity.
    + rewrite O in NO. discriminate.
  - intros Off. destruct (First Off) as (before & later_on & -> & Quiet).
    split.
    + rewrite operations_app, Quiet. reflexivity.
    + destruct e.
      * exists before, later_on. auto.
      * exists before. eexists. cbn. rewrite <- app_assoc. cbn. eauto.
      * exists before, later_on. auto.
Qed.

End TimerTheorems.


(** ** The heartbeat payload *)

Lemma respects_run {A} (I : Agent -> Prop) (P : Event -> Prop)
  (t : Task A) net a :
  respects I P t -> I a ->
  Forall P (events (run t net a)) /\ I (after (run t net a)).
Proof.
  revert net a.
  induction t as [x|e|k IH|g k IH|ev k IH|rq k IH|]; intros net a R Ia; cbn.
  - split; [constructor|assumption].
  - split; [constructor|assumption].
  - apply IH; [apply R|]; assumption.
  - destruct R as [Rg Rk]. apply IH; auto.
  - destruct R as [Pev Rk]. destruct (IH net a Rk Ia) as [F Ia'].
    split; [constructor|]; assumption.
  - destruct R as [Prq Rk].
    destruct (IH (net 0%nat) (later 1 net) a (Rk _) Ia) as [F Ia'].
    split; [constructor|]; assumption.
  - split; [constructor|assumption].
Qed.

Lemma respects_bind {A B} (I : Agent -> Prop) (P : Event -> Prop)
  (t : Task A) (f : A -> Task B) :
  respects I P t -> (forall x, respects I P (f x)) ->
  respects I P (bind t f).
Proof.
  intros Rt Rf.
  induction t as [x|e|k IH|g k IH|ev k IH|rq k IH|]; cbn in *; auto.
  - destruct Rt. auto.
  - destruct Rt. auto.
  - destruct Rt. auto.
Qed.

Lemma respects_try_catch {A} (I : Agent -> Prop) (P : Event -> Prop)
  (t : Task A) (h : JsValue -> Task A) :
  respects I P t -> (forall e, respects I P (h e)) ->
  respects I P (try_catch t h).
Proof.
  intros Rt Rh.
  induction t as [x|e|k IH|g k IH|ev k IH|rq k IH|]; cbn in *; auto.
  - destruct Rt. auto.
  - destruct Rt. auto.
  - destruct Rt. auto.
Qed.

Lemma respects_lift {A} (I : Agent -> Prop) (P : Event -> Prop)
  (c : Completion A) :
  respects I P (lift c).
Proof. destruct c; exact Logic.I. Qed.

Create HintDb installed.

(** Walks through a task, leaving nothing when every update keeps the
    invariant and every event is of the right kind. *)
Ltac respects_go :=
  repeat first
    [ exact Logic.I
    | assumption
    | solve [auto with installed]
    | progress cbn [bind try_catch respects get update emit console
                    logSuccess post]
    | apply respects_lift
    | apply respects_try_catch; [|intros ?]
    | apply respects_bind; [|intros ?]
    | split
    | match goal with
      | |- forall _ : Settled, _ => intros [?|?]
      | |- forall _, _ => intro
      | |- respects _ _ (if ?b then _ else _) => destruct b
      | |- respects _ _ (when ?b _) => destruct b; cbn [when]
      | H : installedInvariant ?a |- installedInvariant _ =>
          destruct H; split; assumption
      | H : installedInvariant ?a |- heartbeatWellFormed _ =>
          destruct H; cbn; auto
      | |- heartbeatWellFormed _ => cbn; auto
      end ].

Lemma logError_installed (action : string) (error : JsValue) :
  respects installedInvariant heartbeatWellFormed (logError action error).
Proof. unfold logError. respects_go. Qed.
#[local] Hint Resolve logError_installed : installed.

Lemma toggleDevice_installed (state : string) :
  respects installedInvariant heartbeatWellFormed (toggleDevice state).
Proof. unfold toggleDevice. respects_go. Qed.
#[local] Hint Resolve toggleDevice_installed : installed.

(** The one place a heartbeat payload is built: its two fields are read
    from [this], where the invariant holds. *)
Lemma sendHeartbeat_installed :
  respects installedInvariant heartbeatWellFormed sendHeartbeat.
Proof. unfold sendHeartbeat. respects_go. Qed.
#[local] Hint Resolve sendHeartbeat_installed : installed.



Section PayloadFacts.

Variable StringToNumber : string -> number.
Variable NumberToString : number -> string.





End PayloadFacts.

(** ** The interrupt *)

(** [toggleDevice] up to its [await]: the line, the request, and
    [toggleSettled] left to run. *)
Lemma start_toggleDevice (state : string) (a : Agent) :
  start (toggleDevice state) a =
  {| status := Waiting (toggleRequest (this a) state) (toggleSettled state);
     step_agent := a;
     step_events := [Console (TogglingDeviceState state);
                     Post (toggleRequest (this a) state)] |}.
Proof. reflexivity. Qed.

(** A bot whose listener is registered is parked at its OFF request with
    its timer cleared; the rest of the listener is [sigintResumed]. *)
Lemma signalled_listener (a : Agent) :
  sigint a = true ->
  signalled a =
  {| status := Waiting (toggleRequest (this a) "OFF") sigintResumed;
     step_agent := set_timer false a;
     step_events := [ClearInterval;
                     Console (TogglingDeviceState "OFF");
                     Post (toggleRequest (this a) "OFF")] |}.
Proof. intros S. unfold signalled. rewrite S. reflexivity. Qed.

(** Once the OFF request has settled the listener sends nothing more and
    sets no timer; unless the rejection has no error value, it ends in
    [process.exit()]. *)
Lemma sigintResumed_run (o : Settled) net a :
  let r := run (sigintResumed o) net a in
  timer (after r) = timer a /\
  existsb isClearInterval (events r) = false /\
  existsb (isToggle "OFF") (events r) = false /\
  (ordinary o = true ->
   ending r = Terminated /\
   exists evs, events r = (evs ++ [ProcessExit])%list).
Proof.
  cbv zeta. unfold sigintResumed, toggleSettled.
  rewrite run_bind, run_try_catch.
  destruct o as [response|reason]; cbn.
  - repeat split. eexists [_; _; _]. reflexivity.
  - rewrite logError_run.
    destruct (member reason "message") as [m|x] eqn:M; cbn.
    + repeat split. eexists [_; _]. reflexivity.
    + apply member_thrown in M as [N _]. rewrite N.
      repeat split; discriminate.
Qed.

(** For a single bot the fleet model and [run] tell the same story. *)
Lemma interrupt_alone (a : Agent) (o : Settled) (net : Network) :
  sigint a = true ->
  let r := run sigintListener
             (fun i => match i with O => o | S j => net j end) a in
  map snd (trace (interrupt [a] 0 o net)) = events r /\
  bots (interrupt [a] 0 o net) = [after r].
Proof.
  intros S. cbv zeta.
  pose proof (signalled_listener a S) as L.
  unfold interrupt. cbn [map nth_error]. rewrite L.
  unfold signalled in L. rewrite S in L.
  rewrite (run_start sigintListener), L.
  cbn [status step_agent step_events tagged trace bots replace events after].
  split; [|reflexivity].
  rewrite app_nil_r, map_app, !map_map. cbn [snd]. rewrite !map_id.
  reflexivity.
Qed.

Lemma countOf_app (i : nat) (p : Event -> bool) (xs ys : list (nat * Event)) :
  countOf i p (xs ++ ys) = (countOf i p xs + countOf i p ys)%nat.
Proof. unfold countOf. rewrite filter_app, length_app. reflexivity. Qed.

Lemma countOf_map_pair (i j : nat) (p : Event -> bool) (evs : list Event) :
  countOf i p (map (pair j) evs) =
  if (j =? i)%nat then List.length (filter p evs) else 0%nat.
Proof.
  unfold countOf. induction evs as [|ev evs IH]; cbn.
  - destruct (j =? i)%nat; reflexivity.
  - destruct (j =? i)%nat eqn:J; cbn in *.
    + destruct (p ev); cbn; rewrite IH; reflexivity.
    + exact IH.
Qed.

Lemma countOf_tagged (p : Event -> bool) (steps : list (Step unit)) :
  forall b i,
    countOf i p (tagged b steps) =
    if (i <? b)%nat then 0%nat
    else match nth_error steps (i - b) with
         | Some s => List.length (filter p (step_events s))
         | None => 0%nat
         end.
Proof.
  induction steps as [|s rest IH]; intros b i; cbn [tagged].
  - change (countOf i p []) with 0%nat.
    destruct (i <? b)%nat; [reflexivity|].
    destruct (i - b)%nat; reflexivity.
  - rewrite countOf_app, countOf_map_pair, IH.
    destruct (Nat.ltb_spec i b) as [Lt|Ge].
    + destruct (Nat.eqb_spec b i) as [->|_]; [lia|].
      destruct (Nat.ltb_spec i (S b)); [reflexivity|lia].
    + destruct (Nat.eqb_spec b i) as [->|Ne].
      * rewrite Nat.sub_diag. cbn [nth_error].
        destruct (Nat.ltb_spec i (S i)); [lia|lia].
      * destruct (Nat.ltb_spec i (S b)); [lia|].
        replace (i - b)%nat with (S (i - S b)) by lia. reflexivity.
Qed.

Lemma filter_none {A} (p : A -> bool) (l : list A) :
  existsb p l = false -> List.length (filter p l) = 0%nat.
Proof.
  induction l as [|x l IH]; cbn; [reflexivity|].
  destruct (p x); cbn; [discriminate|exact IH].
Qed.

Lemma nth_error_replace {A} (x : A) (l : list A) :
  forall i j,
    nth_error (replace i x l) j =
    if (i =? j)%nat
    then match nth_error l j with Some _ => Some x | None => None end
    else nth_error l j.
Proof.
  induction l as [|y l IH]; intros i j;
    destruct i as [|i], j as [|j]; cbn; try reflexivity.
  - destruct (i =? j)%nat; reflexivity.
  - apply IH.
Qed.

Lemma length_replace {A} (x : A) (l : list A) :
  forall i, List.length (replace i x l) = List.length l.
Proof.
  induction l as [|y l IH]; intros i; destruct i; cbn; try reflexivity.
  rewrite IH. reflexivity.
Qed.

(** C7, as stated, fails for a bot whose opening is not over when the
    signal arrives: its listener is not registered yet.  Here bot 0 is
    in its cycle and bot 1 still awaits the answer to its first
    request.  Bot 0's listener ends the process; bot 1 sends no OFF
    toggle and nothing of it is cleared. *)
Lemma interrupt_during_opening_counterexample :
  let cycling := agentOf botA in
  let opening := agent (created acctA None) in
  let out := interrupt [cycling; opening] 0 (Fulfilled (JString "ok")) okNet in
  sigint opening = false /\
  exit out = ExitedCleanly /\
  countOf 0 (isToggle "OFF") (trace out) = 1%nat /\
  countOf 1 (isToggle "OFF") (trace out) = 0%nat /\
  countOf 1 isClearInterval (trace out) = 0%nat.
Proof. repeat split. Qed.

(** C7, amended: the interrupt reaches the bots whose listener is
    registered, that is, whose opening is over.  Each of them has its
    interval cleared once and sends exactly one OFF toggle, all of this
    before the first OFF request settles; a bot without a listener does
    nothing at all.  When the first OFF request to settle does so in an
    ordinary way, its listener ends the process with [process.exit()],
    the last thing that happens. *)
Theorem interrupt_stops_every_bot (fleet : list Agent) (winner : nat)
  (o : Settled) (net : Network) (aw : Agent) :
  nth_error fleet winner = Some aw ->
  sigint aw = true ->
  let out := interrupt fleet winner o net in
  List.length (bots out) = List.length fleet /\
  (forall i a,
      nth_error fleet i = Some a ->
      if sigint a
      then (exists a', nth_error (bots out) i = Some a' /\
                       timer a' = false) /\
           countOf i isClearInterval (trace out) = 1%nat /\
           countOf i (isToggle "OFF") (trace out) = 1%nat
      else nth_error (bots out) i = Some a /\
           countOf i (fun _ => true) (trace out) = 0%nat) /\
  (ordinary o = true ->
   exit out = ExitedCleanly /\
   last (trace out) (0%nat, ClearInterval) = (winner, ProcessExit)).
Proof.
  intros Nw Sw. cbv zeta.
  unfold interrupt.
  rewrite (nth_error_map signalled winner fleet), Nw. cbn [option_map].
  rewrite (signalled_listener aw Sw). cbn [status step_agent].
  destruct (sigintResumed_run o net (set_timer false aw))
    as (Tm & NoClear & NoToggle & Ord).
  cbn [bots trace exit]. split; [|split].
  - rewrite length_replace, !length_map. reflexivity.
  - intros i a Ni.
    rewrite nth_error_replace, !countOf_app, !countOf_tagged,
      !countOf_map_pair.
    rewrite Nat.sub_0_r, !nth_error_map, Ni.
    cbn [option_map Nat.ltb Nat.leb].
    destruct (sigint a) eqn:Sa.
    + rewrite (signalled_listener a Sa). cbn [step_events step_agent].
      rewrite (filter_none _ _ NoClear), (filter_none _ _ NoToggle).
      destruct (winner =? i)%nat; (split; [|split; reflexivity]).
      * eexists. split; [reflexivity|exact Tm].
      * eexists. split; reflexivity.
    + unfold signalled. rewrite Sa. cbn [step_events step_agent].
      destruct (Nat.eqb_spec winner i) as [->|Ne].
      * rewrite Ni in Nw. inversion Nw; subst. congruence.
      * split; reflexivity.
  - intros Oo. destruct (Ord Oo) as (End & evs & Evs).
    rewrite End. split; [reflexivity|].
    rewrite Evs, map_app, app_assoc. cbn [map]. apply last_last.
Qed.

Lemma interrupt_stops_every_bot_witness :
  let fleet := [agentOf botA; agent (created acctA None);
                agentOf (set_uptimeMinutes 9 botA)] in
  let out := interrupt fleet 2 (Rejected (JString "ETIMEDOUT")) okNet in
  countOf 0 (isToggle "OFF") (trace out) = 1%nat /\
  countOf 1 (fun _ => true) (trace out) = 0%nat /\
  countOf 2 (isToggle "OFF") (trace out) = 1%nat /\
  exit out = ExitedCleanly.
Proof.
  intros fleet out.
  destruct (interrupt_stops_every_bot fleet 2
              (Rejected (JString "ETIMEDOUT")) okNet
              (agentOf (set_uptimeMinutes 9 botA)) eq_refl eq_refl)
    as (_ & Each & Clean).
  split; [apply (Each 0%nat (agentOf botA) eq_refl)|].
  split; [apply (Each 1%nat (agent (created acctA None)) eq_refl)|].
  split; [apply (Each 2%nat (agentOf (set_uptimeMinutes 9 botA)) eq_refl)|].
  apply Clean. reflexivity.
Defined.

(** ** Sample runs *)

Lemma toggleState_transitions_witness :
  existsb (isToggle "ON")
    (events (run (timerCallback noStringNumber noLargeNumber) okNet offAgent))
  = true.
Proof.
  destruct (toggleState_transitions noStringNumber noLargeNumber
              acctA None okNet offAgent) as (_ & Only & _).
  apply Only.
  - right. left. reflexivity.
  - reflexivity.
  - reflexivity.
Defined.

Lemma failures_do_not_stop_the_cycle_witness :
  let net : Network :=
    fun i => match i with
             | 1%nat => Rejected (JObject [("message", JString "502")])
             | _ => Fulfilled (JString "ok")
             end in
  operations
    (events (run (timerCallback noStringNumber noLargeNumber) net offAgent))
  = [ToggleCall "ON"; HeartbeatCall; WalletCall; UptimeLog].
Proof.
  intros net.
  destruct (failures_do_not_stop_the_cycle noStringNumber noLargeNumber
              net offAgent) as (_ & _ & All & _).
  apply All. intros [|[|i]]; reflexivity.
Defined.

Lemma tick_order_witness :
  hd_error
    (operations
       (events (run (timerCallback noStringNumber noLargeNumber)
                  (fun _ => Rejected JUndefined) offAgent)))
  = Some (ToggleCall "ON").
Proof.
  destruct (tick_order noStringNumber noLargeNumber
              (fun _ => Rejected JUndefined) offAgent) as (_ & _ & First).
  destruct (First eq_refl) as [H _]. exact H.
Defined.

(** * The driver *)

(** ** Text *)

Arguments isWhiteSpace : simpl never.

Lemma trimStart_startsWhite (s : string) : startsWhite (trimStart s) = false.
Proof.
  induction s as [|c rest IH]; cbn; [reflexivity|].
  destruct (isWhiteSpace c) eqn:W; [exact IH|]. cbn. exact W.
Qed.

Lemma trimEnd_endsWhite (s : string) : endsWhite (trimEnd s) = false.
Proof.
  induction s as [|c rest IH]; cbn; [reflexivity|].
  destruct (trimEnd rest) as [|d kept] eqn:T.
  - destruct (isWhiteSpace c) eqn:W; cbn; [reflexivity|exact W].
  - cbn in *. exact IH.
Qed.

Lemma trimEnd_startsWhite (s : string) :
  startsWhite s = false -> startsWhite (trimEnd s) = false.
Proof.
  destruct s as [|c rest]; cbn; [reflexivity|]. intros W.
  destruct (trimEnd rest); [rewrite W|]; cbn; exact W.
Qed.

Lemma trimStart_hasLineFeed (s : string) :
  hasLineFeed s = false -> hasLineFeed (trimStart s) = false.
Proof.
  induction s as [|c rest IH]; cbn; [reflexivity|]. intros H.
  apply orb_false_iff in H as [Hc Hr].
  destruct (isWhiteSpace c); [auto|]. cbn. rewrite Hc, Hr. reflexivity.
Qed.

Lemma trimEnd_hasLineFeed (s : string) :
  hasLineFeed s = false -> hasLineFeed (trimEnd s) = false.
Proof.
  induction s as [|c rest IH]; cbn; [reflexivity|]. intros H.
  apply orb_false_iff in H as [Hc Hr]. specialize (IH Hr).
  destruct (trimEnd rest) as [|d kept].
  - destruct (isWhiteSpace c); cbn; [reflexivity|]. rewrite Hc. reflexivity.
  - cbn in *. rewrite Hc, IH. reflexivity.
Qed.

(** No piece of a split contains the separator. *)
Lemma splitOn_lineFeed (s : string) :
  Forall (fun piece => hasLineFeed piece = false) (splitOn lineFeed s).
Proof.
  induction s as [|c rest IH]; cbn [splitOn].
  - repeat constructor.
  - destruct (Ascii.eqb c lineFeed) eqn:E.
    + constructor; [reflexivity|exact IH].
    + destruct (splitOn lineFeed rest) as [|first others].
      * repeat constructor. cbn. rewrite E. reflexivity.
      * inversion IH; subst. constructor; [|assumption].
        cbn. rewrite E. assumption.
Qed.

(** A string without the separator is a single piece, and a separator
    after such a string ends the first piece. *)
Lemma splitOn_app (a b : string) :
  hasLineFeed a = false ->
  splitOn lineFeed (a ++ String lineFeed b) = a :: splitOn lineFeed b.
Proof.
  induction a as [|c a IH]; cbn; [reflexivity|]. intros H.
  apply orb_false_iff in H as [Hc Ha]. rewrite Hc, (IH Ha). reflexivity.
Qed.

Lemma splitOn_single (a : string) :
  hasLineFeed a = false -> splitOn lineFeed a = [a].
Proof.
  induction a as [|c a IH]; cbn; [reflexivity|]. intros H.
  apply orb_false_iff in H as [Hc Ha]. rewrite Hc, (IH Ha). reflexivity.
Qed.

Lemma hasLineFeed_app (a b : string) :
  hasLineFeed (a ++ b) = hasLineFeed a || hasLineFeed b.
Proof.
  induction a as [|c a IH]; cbn; [reflexivity|].
  rewrite IH, orb_assoc. reflexivity.
Qed.

Lemma allWhite_hasLineFeed (w : string) :
  allWhite w = true -> hasLineFeed w = false.
Proof.
  induction w as [|c w IH]; cbn; [reflexivity|]. intros H.
  apply andb_true_iff in H as [H Hw]. apply andb_true_iff in H as [_ Hc].
  apply negb_true_iff in Hc. rewrite Hc, (IH Hw). reflexivity.
Qed.

Lemma trimStart_allWhite (w s : string) :
  allWhite w = true -> trimStart (w ++ s) = trimStart s.
Proof.
  induction w as [|c w IH]; cbn; [reflexivity|]. intros H.
  apply andb_true_iff in H as [H Hw]. apply andb_true_iff in H as [Hc _].
  rewrite Hc. auto.
Qed.

Lemma trimStart_fixed (s : string) : startsWhite s = false -> trimStart s = s.
Proof. destruct s as [|c rest]; cbn; [reflexivity|]. intros ->. reflexivity. Qed.

Lemma trimEnd_allWhite (s w : string) :
  allWhite w = true -> trimEnd (s ++ w) = trimEnd s.
Proof.
  intros Hw. induction s as [|c s IH]; cbn.
  - induction w as [|d w IHw]; cbn; [reflexivity|]. cbn in Hw.
    apply andb_true_iff in Hw as [H Hw'].
    apply andb_true_iff in H as [Hd _].
    rewrite (IHw Hw'), Hd. reflexivity.
  - rewrite IH. reflexivity.
Qed.

Lemma trimEnd_fixed (s : string) : endsWhite s = false -> trimEnd s = s.
Proof.
  induction s as [|c rest IH]; cbn; [reflexivity|].
  destruct rest as [|d rest'].
  - intros ->. reflexivity.
  - intros H. rewrite (IH H). reflexivity.
Qed.

(** [trim] undoes any padding of a line that has none of its own. *)
Lemma trim_padded (before line behind : string) :
  allWhite before = true -> allWhite behind = true ->
  startsWhite line = false -> endsWhite line = false ->
  trim (before ++ line ++ behind) = line.
Proof.
  intros Hb Ha Hs He. unfold trim.
  rewrite (trimStart_allWhite _ _ Hb).
  destruct line as [|c rest].
  - cbn [append]. clear Hs He.
    assert (T : trimStart behind = "").
    { induction behind as [|d w IH]; cbn; [reflexivity|]. cbn in Ha.
      apply andb_true_iff in Ha as [H Hw].
      apply andb_true_iff in H as [Hd _]. rewrite Hd. auto. }
    rewrite T. reflexivity.
  - rewrite trimStart_fixed by (cbn; exact Hs).
    rewrite (trimEnd_allWhite _ _ Ha). apply trimEnd_fixed. exact He.
Qed.

(** ** The proxy file *)

Lemma splitOn_joinLines (lines : list string) :
  lines <> [] ->
  Forall (fun line => hasLineFeed line = false) lines ->
  splitOn lineFeed (joinLines lines) = lines.
Proof.
  induction lines as [|line rest IH]; [contradiction|].
  intros _ F. inversion F as [|? ? Hl Hr]; subst.
  destruct rest as [|next rest'].
  - cbn. apply splitOn_single. exact Hl.
  - change (joinLines (line :: next :: rest'))
      with (line ++ String lineFeed (joinLines (next :: rest'))).
    rewrite (splitOn_app _ _ Hl), IH; [reflexivity|discriminate|exact Hr].
Qed.

Lemma clean_parts (line : string) :
  clean line = true ->
  line <> "" /\ startsWhite line = false /\ endsWhite line = false /\
  hasLineFeed line = false.
Proof.
  unfold clean. intros H.
  apply andb_true_iff in H as [H H4]. apply andb_true_iff in H as [H H3].
  apply andb_true_iff in H as [H1 H2].
  apply negb_true_iff in H1, H2, H3, H4.
  repeat split; try assumption. intros ->. discriminate.
Qed.

Lemma trim_piece_clean (piece : string) :
  hasLineFeed piece = false -> trim piece <> "" -> clean (trim piece) = true.
Proof.
  intros F NE. unfold clean, trim in *.
  rewrite trimEnd_startsWhite by apply trimStart_startsWhite.
  rewrite trimEnd_endsWhite.
  rewrite trimEnd_hasLineFeed by (apply trimStart_hasLineFeed; exact F).
  destruct (trimEnd (trimStart piece)); [contradiction|reflexivity].
Qed.

Lemma loadProxies_entries_clean_aux (proxyData : string) :
  exists proxies,
    loadProxies (Normal proxyData) = (Normal proxies, []) /\
    forallb clean proxies = true.
Proof.
  eexists. split; [reflexivity|].
  apply forallb_forall. intros line In1.
  apply filter_In in In1 as [In2 NE].
  apply in_map_iff in In2 as (piece & <- & In3).
  pose proof (splitOn_lineFeed proxyData) as F.
  rewrite Forall_forall in F. apply trim_piece_clean; [auto|].
  intros E. rewrite E in NE. discriminate.
Qed.

(** X1: whatever the proxy file holds, every entry [loadProxies] returns
    is usable: not empty, no whitespace at either end, no line feed; and
    nothing is printed. *)
Theorem loadProxies_entries_clean (proxyData : string) :
  exists proxies,
    loadProxies (Normal proxyData) = (Normal proxies, []) /\
    forallb clean proxies = true /\
    forall line, In line proxies ->
                 exists piece, In piece (splitOn lineFeed proxyData) /\
                               line = trim piece.
Proof.
  eexists. split; [reflexivity|]. split.
  - apply forallb_forall. intros line In1.
    apply filter_In in In1 as [In2 NE].
    apply in_map_iff in In2 as (piece & <- & In3).
    pose proof (splitOn_lineFeed proxyData) as F.
    rewrite Forall_forall in F. apply trim_piece_clean; [auto|].
    intros E. rewrite E in NE. discriminate.
  - intros line In1. apply filter_In in In1 as [In2 _].
    apply in_map_iff in In2 as (piece & <- & In3). eauto.
Qed.

(** X2: reading back what was written.  A file whose lines are usable
    proxies, each with any blanks before and after it (indentation, a CR
    before the line feed) and with blank lines anywhere, loads as exactly
    those proxies, in order. *)
Theorem loadProxies_round_trip (entries : list (string * string * string)) :
  Forall wellPadded entries ->
  loadProxies (Normal (joinLines (map padded entries))) =
  (Normal (filter nonEmpty (map middle entries)), []).
Proof.
  intros F. unfold loadProxies. f_equal. f_equal.
  assert (NoLF : Forall (fun line => hasLineFeed line = false)
                   (map padded entries)).
  { apply Forall_map. eapply Forall_impl; [|exact F].
    intros [[before line] behind] (Hb & Ha & Hl). cbn.
    rewrite !hasLineFeed_app, (allWhite_hasLineFeed _ Hb),
      (allWhite_hasLineFeed _ Ha).
    destruct Hl as [->|Hc]; [reflexivity|].
    apply clean_parts in Hc as (_ & _ & _ & ->). reflexivity. }
  assert (Trim : map trim (map padded entries) = map middle entries).
  { rewrite map_map. apply map_ext_Forall.
    eapply Forall_impl; [|exact F].
    intros [[before line] behind] (Hb & Ha & Hl). cbn.
    apply trim_padded; try assumption.
    - destruct Hl as [->|Hc]; [reflexivity|]. apply clean_parts in Hc. tauto.
    - destruct Hl as [->|Hc]; [reflexivity|]. apply clean_parts in Hc. tauto. }
  destruct entries as [|e rest]; [reflexivity|].
  rewrite splitOn_joinLines; [|discriminate|exact NoLF].
  rewrite Trim. reflexivity.
Qed.

Lemma loadProxies_round_trip_witness :
  let cr := String "013"%char "" in
  loadProxies
    (Normal (joinLines [padded ("", "10.0.0.1:8080", cr);
                        padded ("", "", cr);
                        padded ("  ", "http://proxy.example:3128", "")])) =
  (Normal ["10.0.0.1:8080"; "http://proxy.example:3128"], []).
Proof.
  intros cr.
  apply (loadProxies_round_trip
           [("", "10.0.0.1:8080", cr); ("", "", cr);
            ("  ", "http://proxy.example:3128", "")]).
  repeat constructor; right; reflexivity.
Defined.

(** ** The prompt *)

(** X3: proxies are used exactly when the answer is the single letter y,
    in either case; "yes", "y " or an empty answer mean no. *)
Theorem askForProxyUsage_only_y (answer : string) :
  askForProxyUsage answer = true <-> answer = "y" \/ answer = "Y".
Proof.
  unfold askForProxyUsage. destruct answer as [|c [|d rest]].
  - cbn. split; [discriminate|]. intros [H|H]; discriminate.
  - destruct c as [[] [] [] [] [] [] [] []]; vm_compute;
      (split; [intros H; first [discriminate H | auto]
              | intros [H|H]; first [discriminate H | reflexivity]]).
  - split.
    + cbn. destruct (lowerChar c =? "y"%char)%char; discriminate.
    + intros [H|H]; discriminate.
Qed.

(** ** The fleet *)

Lemma mapWithIndex_nth {A B} (f : A -> nat -> B) (l : list A) :
  forall base i,
    nth_error (mapWithIndex f base l) i =
    option_map (fun x => f x (base + i)%nat) (nth_error l i).
Proof.
  induction l as [|x rest IH]; intros base i.
  - destruct i; reflexivity.
  - destruct i as [|i]; cbn.
    + rewrite Nat.add_0_r. reflexivity.
    + rewrite IH. rewrite Nat.add_succ_r. reflexivity.
Qed.

Lemma mapWithIndex_length {A B} (f : A -> nat -> B) (l : list A) :
  forall base, List.length (mapWithIndex f base l) = List.length l.
Proof. induction l as [|x rest IH]; intros base; cbn; auto. Qed.

Lemma assignProxy_some (proxies : list string) (index : nat) :
  proxies <> [] ->
  exists p, assignProxy proxies index = Some p /\ In p proxies.
Proof.
  intros NE. destruct proxies as [|q rest]; [contradiction|].
  unfold assignProxy.
  destruct (nth_error (q :: rest) (index mod List.length (q :: rest)))
    as [p|] eqn:E.
  - exists p. split; [reflexivity|]. eapply nth_error_In; eauto.
  - apply nth_error_None in E.
    pose proof (Nat.mod_upper_bound index (List.length (q :: rest))) as B.
    cbn in *. lia.
Qed.

(** X4: one bot per account, in the accounts' order, each as the
    constructor leaves it (no tick counted, device marked on, no timer);
    the proxies go round the accounts: bot [i] gets proxy [i mod n],
    formatted, so two bots whose indices agree modulo [n] share a proxy,
    and with no proxies nobody has one. *)
Theorem createBots_round_robin (accounts : list Account)
  (proxies : list string) (i : nat) (acct : Account) :
  nth_error accounts i = Some acct ->
  List.length (createBots accounts proxies) = List.length accounts /\
  exists bot,
    nth_error (createBots accounts proxies) i = Some bot /\
    account (this (agent bot)) = acct /\
    uptimeMinutes (this (agent bot)) = 0%N /\
    toggleState (this (agent bot)) = true /\
    timer (agent bot) = false /\
    (proxies = [] -> proxyConfig (this (agent bot)) = None) /\
    (forall p, nth_error proxies (i mod List.length proxies) = Some p ->
               p <> "" ->
               proxyConfig (this (agent bot)) = Some (formatProxy p)) /\
    (forall j bot', (i mod List.length proxies = j mod List.length proxies)%nat ->
                    nth_error (createBots accounts proxies) j = Some bot' ->
                    proxyConfig (this (agent bot')) =
                    proxyConfig (this (agent bot))).
Proof.
  intros Hi. unfold createBots. split; [apply mapWithIndex_length|].
  eexists. rewrite mapWithIndex_nth, Hi. cbn [option_map Nat.add].
  split; [reflexivity|]. repeat split.
  - intros ->. reflexivity.
  - intros p Hp NE. destruct proxies as [|q rest];
      [rewrite nth_error_nil in Hp; discriminate|].
    unfold assignProxy in *. cbn [created agent this]. rewrite Hp. cbn.
    destruct p; [contradiction|reflexivity].
  - intros j bot' M Hj. rewrite mapWithIndex_nth in Hj.
    destruct (nth_error accounts j) as [acct'|]; [|discriminate].
    cbn in Hj. injection Hj as <-.
    destruct proxies as [|q rest]; [reflexivity|].
    unfold assignProxy. cbn [created agent this]. rewrite M. reflexivity.
Qed.

Lemma createBots_round_robin_witness :
  let other := {| walletAddress := "0xB"; token := "t2";
                  account_deviceHash := "d2" |} in
  let fleet := createBots [acctA; other; acctA] ["10.0.0.1:80"; "10.0.0.2:80"] in
  List.length fleet = 3%nat /\
  exists bot,
    nth_error fleet 2 = Some bot /\
    proxyConfig (this (agent bot)) = Some "http://10.0.0.1:80".
Proof.
  intros other fleet.
  destruct (createBots_round_robin [acctA; other; acctA]
              ["10.0.0.1:80"; "10.0.0.2:80"] 2 acctA eq_refl)
    as (Len & bot & Hb & _ & _ & _ & _ & _ & Rr & _).
  split; [exact Len|]. exists bot. split; [exact Hb|].
  apply (Rr "10.0.0.1:80"); [reflexivity|discriminate].
Defined.

(** X5: the proxy file and the fleet together.  Whatever the file
    holds, if it yields any proxy then every bot has one -- never
    [null] -- it is one of the file's lines with "http://" in front
    unless the line begins with "http", and the constructor announces
    it. *)
Theorem loaded_proxies_reach_every_bot (proxyData : string)
  (accounts : list Account) (proxies : list string) (i : nat)
  (bot : Process) :
  fst (loadProxies (Normal proxyData)) = Normal proxies ->
  proxies <> [] ->
  nth_error (createBots accounts proxies) i = Some bot ->
  exists line,
    In line proxies /\ clean line = true /\
    proxyConfig (this (agent bot)) = Some (formatProxy line) /\
    prefix "http" (formatProxy line) = true /\
    output bot = [Console (RunningWithProxy (formatProxy line))].
Proof.
  intros Load NE Hb.
  destruct (loadProxies_entries_clean_aux proxyData) as (ps & Eq & Clean).
  rewrite Eq in Load. cbn in Load. injection Load as ->.
  unfold createBots in Hb. rewrite mapWithIndex_nth in Hb.
  destruct (nth_error accounts i) as [acct|]; [|discriminate].
  cbn in Hb. injection Hb as <-.
  destruct (assignProxy_some proxies i NE) as (line & A & In1).
  exists line. rewrite forallb_forall in Clean.
  pose proof (Clean line In1) as C.
  destruct (clean_parts line C) as (NEl & _).
  split; [exact In1|]. split; [exact C|].
  unfold created. cbn [agent this output]. rewrite A.
  destruct line as [|c rest]; [contradiction|]. cbn.
  rewrite prefix_http_formatProxy. auto.
Qed.

Lemma loaded_proxies_reach_every_bot_witness :
  exists line,
    clean line = true /\
    proxyConfig (this (agent (created acctA (Some "10.0.0.1:80")))) =
    Some (formatProxy line).
Proof.
  destruct (loaded_proxies_reach_every_bot
              (String "032"%char "10.0.0.1:80" ++ String lineFeed "")
              [acctA] ["10.0.0.1:80"] 0 (created acctA (Some "10.0.0.1:80"))
              eq_refl ltac:(discriminate) eq_refl)
    as (line & _ & C & P & _).
  exists line. split; assumption.
Defined.

(** ** [main] *)

Lemma createBots_without_proxies (accounts : list Account) :
  Forall (fun bot => proxyConfig (this (agent bot)) = None /\
                     output bot = [Console RunningWithoutProxy])
    (createBots accounts []).
Proof.
  unfold createBots. generalize 0%nat.
  induction accounts as [|acct rest IH]; intros base; cbn; constructor.
  - split; reflexivity.
  - apply IH.
Qed.

(** X6: accounts that cannot be read or parsed are fatal.  [main] ends
    the process with exit code 1 right after the prompt, whatever was
    answered; the proxy file plays no part and no bot is made. *)
Theorem main_accounts_failure_is_fatal (answer : string) (error : JsValue)
  (read : Completion string) :
  fst (main answer (Thrown error) read) = ProcessExits 1 /\
  (exists line,
      snd (main answer (Thrown error) read) =
      [Banner; ProxyConfigurationHeader; line] /\
      (line = FailedToLoadAccounts (field error "message") \/
       exists typeError, line = InitializationError typeError)) /\
  forall read', main answer (Thrown error) read' =
                main answer (Thrown error) read.
Proof.
  unfold main, loadAccounts, field.
  destruct (member error "message") as [message|typeError]; cbn.
  - repeat split. eexists. split; [reflexivity|]. left. reflexivity.
  - repeat split. eexists. split; [reflexivity|]. right. eauto.
Qed.

(** X7: proxies are optional.  When the answer declines them, or when
    the proxy file cannot be read, [main] still makes one bot per
    account, none of them with a proxy; a declined file is not looked at
    and a failed read is printed. *)
Theorem main_starts_without_proxies (answer : string)
  (accounts : list Account) (read : Completion string) :
  askForProxyUsage answer = false \/
  (exists error, read = Thrown error /\ nullish error = false) ->
  exists printed,
    main answer (Normal accounts) read =
    (Got (createBots accounts []),
     ([Banner; ProxyConfigurationHeader] ++ printed)%list) /\
    (askForProxyUsage answer = false -> printed = []) /\
    (askForProxyUsage answer = true ->
     exists message, printed = [FailedToLoadProxies message]) /\
    List.length (createBots accounts []) = List.length accounts /\
    Forall (fun bot => proxyConfig (this (agent bot)) = None /\
                       output bot = [Console RunningWithoutProxy])
      (createBots accounts []).
Proof.
  intros H. unfold main. cbn [loadAccounts].
  destruct (askForProxyUsage answer) eqn:Ask.
  - destruct H as [H|(error & -> & N)]; [discriminate|].
    unfold loadProxies.
    destruct (member error "message") as [message|typeError] eqn:M.
    + eexists. split; [reflexivity|].
      split; [discriminate|].
      split; [intros _; eexists; reflexivity|].
      split; [apply mapWithIndex_length|apply createBots_without_proxies].
    + apply member_thrown in M as [N' _]. rewrite N in N'. discriminate.
  - exists []. split; [reflexivity|].
    split; [reflexivity|]. split; [discriminate|].
    split; [apply mapWithIndex_length|apply createBots_without_proxies].
Qed.

Lemma main_starts_without_proxies_witness :
  exists printed,
    main "yes" (Normal [acctA])
      (Normal "10.0.0.1:80") =
    (Got (createBots [acctA] []),
     ([Banner; ProxyConfigurationHeader] ++ printed)%list).
Proof.
  destruct (main_starts_without_proxies "yes" [acctA] (Normal "10.0.0.1:80")
              (or_introl eq_refl)) as (printed & H & _).
  exists printed. exact H.
Defined.

(** * More about one bot *)

(** ** Invariants of a whole life *)

Section LifeInvariant.

Variable StringToNumber : string -> number.
Variable NumberToString : number -> string.
Variable I : Agent -> Prop.
Variable P : Event -> Prop.

Hypothesis ticking :
  respects I P (timerCallback StringToNumber NumberToString).
Hypothesis signal : respects I P sigintListener.

Lemma exec_respects {A} (t : Task A) (net : Network) (p : Process) :
  respects I P t -> I (agent p) -> Forall P (output p) ->
  I (agent (exec t net p)) /\ Forall P (output (exec t net p)).
Proof.
  intros R Ia F. unfold exec, absorb. cbn.
  destruct (respects_run _ _ t (later (answered p) net) (agent p) R Ia)
    as [F' Ia'].
  split; [exact Ia'|]. apply Forall_app. split; assumption.
Qed.

Lemma deliver_respects (net : Network) (p : Process) (s : Stimulus) :
  I (agent p) -> Forall P (output p) ->
  I (agent (deliver StringToNumber NumberToString net p s)) /\
  Forall P (output (deliver StringToNumber NumberToString net p s)).
Proof.
  intros Ia F. unfold deliver.
  destruct (liveness p); auto. destruct s.
  - destruct (timer (agent p)); auto. apply exec_respects; auto.
  - destruct (sigint (agent p)); auto. apply exec_respects; auto.
Qed.

Lemma life_respects (net : Network) (ss : list Stimulus) :
  forall p, I (agent p) -> Forall P (output p) ->
            I (agent (life StringToNumber NumberToString net p ss)) /\
            Forall P (output (life StringToNumber NumberToString net p ss)).
Proof.
  induction ss as [|s ss IH]; intros p Ia F; [auto|].
  cbn [life fold_left].
  destruct (deliver_respects net p s Ia F) as [Ia' F'].
  apply IH; assumption.
Qed.

End LifeInvariant.

Create HintDb identity.

(** Walks through a task for the identity invariant. *)
Ltac identity_go :=
  repeat first
    [ exact Logic.I
    | assumption
    | solve [auto with identity]
    | progress cbn [bind try_catch respects get update emit console
                    logSuccess post]
    | apply respects_lift
    | apply respects_try_catch; [|intros ?]
    | apply respects_bind; [|intros ?]
    | match goal with
      | H : sameIdentity ?t0 ?a |- requestOf ?t0 (Post _) =>
          destruct H as (Ha & Hp & Hu & Hd); cbn;
          rewrite ?Ha, ?Hp, ?Hu, ?Hd; solve [auto 12]
      | |- requestOf _ _ => exact Logic.I
      end
    | split
    | match goal with
      | |- forall _ : Settled, _ => intros [?|?]
      | |- forall _, _ => intro
      | |- respects _ _ (if ?b then _ else _) => destruct b
      | |- respects _ _ (when ?b _) => destruct b; cbn [when]
      end ].

Lemma logError_identity (t0 : DeviceHeartbeatBot) (action : string)
  (error : JsValue) :
  respects (sameIdentity t0) (requestOf t0) (logError action error).
Proof. unfold logError. identity_go. Qed.
#[local] Hint Resolve logError_identity : identity.

Lemma toggleDevice_identity (t0 : DeviceHeartbeatBot) (state : string) :
  respects (sameIdentity t0) (requestOf t0) (toggleDevice state).
Proof. unfold toggleDevice. identity_go. Qed.
#[local] Hint Resolve toggleDevice_identity : identity.

Lemma sendHeartbeat_identity (t0 : DeviceHeartbeatBot) :
  respects (sameIdentity t0) (requestOf t0) sendHeartbeat.
Proof. unfold sendHeartbeat. identity_go. Qed.
#[local] Hint Resolve sendHeartbeat_identity : identity.

Lemma sigintListener_identity (t0 : DeviceHeartbeatBot) :
  respects (sameIdentity t0) (requestOf t0) sigintListener.
Proof. unfold sigintListener. identity_go. Qed.

Lemma startHeartbeatCycle_identity (t0 : DeviceHeartbeatBot) :
  respects (sameIdentity t0) (requestOf t0) startHeartbeatCycle.
Proof. unfold startHeartbeatCycle. identity_go. Qed.

Section IdentityFacts.

Variable StringToNumber : string -> number.
Variable NumberToString : number -> string.

Lemma getWalletDetails_identity (t0 : DeviceHeartbeatBot) :
  respects (sameIdentity t0) (requestOf t0)
    (getWalletDetails StringToNumber NumberToString).
Proof. unfold getWalletDetails, logWalletDetails. identity_go. Qed.

Lemma timerCallback_identity (t0 : DeviceHeartbeatBot) :
  respects (sameIdentity t0) (requestOf t0)
    (timerCallback StringToNumber NumberToString).
Proof.
  pose proof (getWalletDetails_identity t0).
  unfold timerCallback, timerBody, timerCatch. identity_go.
Qed.

(** X8: every request a bot ever sends is its own: it carries the
    account's bearer token (and the fixed user agent, referer and content
    type), goes through the proxy the constructor stored, names the
    account's wallet, and is addressed to one of the three endpoints --
    in every life, whatever the network answers. *)
Theorem every_request_is_the_bots_own (net : Network) (acct : Account)
  (proxyArg : option string) (ss : list Stimulus) (rq : Request) :
  In (Post rq)
     (output (life StringToNumber NumberToString net
                (boot acct proxyArg net) ss)) ->
  In ("Authorization", "Bearer " ++ token acct) (headers rq) /\
  headers rq =
  config_headers (getRequestConfig (fst (constructor acct proxyArg))) /\
  proxy rq = proxyConfig (fst (constructor acct proxyArg)) /\
  payloadWallet (json rq) = walletAddress acct /\
  In (url rq) endpoints.
Proof.
  intros Sent.
  set (t0 := fst (constructor acct proxyArg)).
  assert (Start : sameIdentity t0 (agent (boot acct proxyArg net)) /\
                  Forall (requestOf t0) (output (boot acct proxyArg net))).
  { apply exec_respects.
    - apply startHeartbeatCycle_identity.
    - repeat split.
    - repeat constructor. }
  destruct Start as [Ia F].
  destruct (life_respects StringToNumber NumberToString
              (sameIdentity t0) (requestOf t0)
              (timerCallback_identity t0)
              (sigintListener_identity t0) net ss _ Ia F) as [_ All].
  rewrite Forall_forall in All.
  destruct (All _ Sent) as (H & Px & W & U).
  split; [rewrite H; left; reflexivity|]. repeat split; assumption.
Qed.

End IdentityFacts.

Lemma every_request_is_the_bots_own_witness :
  In ("Authorization", "Bearer t1")
     (headers (toggleRequest botA "ON")).
Proof.
  apply (every_request_is_the_bots_own noStringNumber noLargeNumber
           okNet acctA None [] (toggleRequest botA "ON")).
  vm_compute. right. right. left. reflexivity.
Defined.

(** ** The opening *)

(** [startHeartbeatCycle] in full.  It never rejects.  When its two
    requests settle in an ordinary way it ends by setting the interval
    and registering the listener; otherwise its [catch] prints and
    neither is done. *)
Lemma opening_cases net a :
  exists evs u a',
    run startHeartbeatCycle net a =
    {| ending := Returned tt; after := a'; events := evs; used := u |} /\
    if ordinary (net 0%nat) && ordinary (net 1%nat)
    then a' = set_sigint true
                (set_timer true (set_cycleCount 0 (openingToggled net a))) /\
         operations evs = [ToggleCall "ON"; HeartbeatCall] /\
         u = 2%nat /\
         exists before,
           evs = (before ++ [SetInterval 60000; OnSigint])%list /\
           existsb isTimerEvent before = false
    else a' = openingToggled net a /\
         existsb isTimerEvent evs = false /\
         exists before what,
           evs = (before ++
                  [Console (ErrorLine "Heartbeat Cycle Start" what)])%list.
Proof.
  unfold startHeartbeatCycle, openingToggled. rewrite run_try_catch.
  rewrite run_bind. settle_case toggleDevice_run; cbn.
  all: try (rewrite run_bind; settle_case sendHeartbeat_run; cbn).
  all: unfold later in *; cbn [Nat.add] in *.
  all: repeat match goal with
         | M : member ?reason "message" = Thrown _ |- _ =>
             let N := fresh "N" in
             apply member_thrown in M as [N [? ->]]
         | M : member ?reason "message" = Normal _ |- _ =>
             let N := fresh "N" in
             apply member_normal in M as [N ->]
         end.
  all: rewrite ?logError_run; cbn.
  all: do 3 eexists; split; [reflexivity|].
  all: repeat match goal with
         | E : _ = Fulfilled _ |- _ => rewrite ?E; clear E
         | E : _ = Rejected _ |- _ => rewrite ?E; clear E
         end.
  all: cbn.
  all: repeat match goal with
         | N : nullish _ = _ |- _ => rewrite ?N; clear N
         end.
  all: cbn.
  all: repeat split; try reflexivity.
  all: match goal with
       | |- exists before, ?l = (before ++ [_; _])%list /\ _ =>
           exists (firstn (List.length l - 2) l); split; reflexivity
       | |- exists before what, ?l = (before ++ [_])%list =>
           exists (firstn (List.length l - 1) l); eexists; reflexivity
       end.
Qed.

Lemma life_stopped_agent (f : string -> number) (g : number -> string)
  (net : Network) (ss : list Stimulus) :
  forall p, timer (agent p) = false -> sigint (agent p) = false ->
            output (life f g net p ss) = output p.
Proof.
  induction ss as [|s ss IH]; intros p T S; [reflexivity|].
  cbn [life fold_left]. unfold life in IH.
  assert (D : output (deliver f g net p s) = output p /\
              agent (deliver f g net p s) = agent p).
  { unfold deliver. destruct (liveness p); auto.
    destruct s; [rewrite T|rewrite S]; auto. }
  destruct D as [Do Da]. rewrite IH, Do; rewrite ?Da; auto.
Qed.

Section OpeningFacts.

Variable StringToNumber : string -> number.
Variable NumberToString : number -> string.

(** X9: the opening either arms the bot or leaves it inert.  [boot]
    never crashes and counts no tick.  If its two requests (ON toggle,
    heartbeat) settle in an ordinary way, the last two things it does
    are to set the one interval, of 60000 ms, and to register the SIGINT
    listener.  Otherwise neither exists, and nothing the bot receives
    later makes it print or send anything again. *)
Theorem opening_arms_or_leaves_inert (net : Network) (acct : Account)
  (proxyArg : option string) :
  let p := boot acct proxyArg net in
  liveness p = Running /\
  uptimeMinutes (this (agent p)) = 0%N /\
  if ordinary (net 0%nat) && ordinary (net 1%nat)
  then timer (agent p) = true /\ sigint (agent p) = true /\
       answered p = 2%nat /\
       exists before,
         output p = (before ++ [SetInterval 60000; OnSigint])%list /\
         existsb isTimerEvent before = false
  else timer (agent p) = false /\ sigint (agent p) = false /\
       existsb isTimerEvent (output p) = false /\
       forall ss,
         output (life StringToNumber NumberToString net p ss) = output p.
Proof.
  cbv zeta. unfold boot, exec.
  change (later (answered (created acct proxyArg)) net) with net.
  destruct (opening_cases net (agent (created acct proxyArg)))
    as (evs & u & a' & -> & Cases).
  unfold absorb. cbn [ending after events used agent output liveness
                      answered].
  split; [reflexivity|].
  destruct (ordinary (net 0%nat) && ordinary (net 1%nat)).
  - destruct Cases as (-> & _ & -> & before & -> & Quiet).
    split; [unfold openingToggled; destruct (net 0%nat); reflexivity|].
    repeat split.
    exists (output (created acct proxyArg) ++ before)%list.
    split; [apply app_assoc|]. cbn. exact Quiet.
  - destruct Cases as (-> & Quiet & _).
    split; [unfold openingToggled; destruct (net 0%nat); reflexivity|].
    assert (T : timer (openingToggled net (agent (created acct proxyArg)))
                = false)
      by (unfold openingToggled; destruct (net 0%nat); reflexivity).
    assert (S : sigint (openingToggled net (agent (created acct proxyArg)))
                = false)
      by (unfold openingToggled; destruct (net 0%nat); reflexivity).
    split; [exact T|]. split; [exact S|]. split; [cbn; exact Quiet|].
    intros ss. apply life_stopped_agent; assumption.
Qed.

End OpeningFacts.

(** ** A life with ordinary settlements *)

Lemma life_app (f : string -> number) (g : number -> string)
  (net : Network) (p : Process) (ss ss' : list Stimulus) :
  life f g net p (ss ++ ss') = life f g net (life f g net p ss) ss'.
Proof. unfold life. apply fold_left_app. Qed.

Lemma life_not_running (f : string -> number) (g : number -> string)
  (net : Network) (ss : list Stimulus) :
  forall p, liveness p <> Running -> life f g net p ss = p.
Proof.
  induction ss as [|s ss IH]; intros p L; [reflexivity|].
  cbn [life fold_left]. unfold life in IH.
  assert (D : deliver f g net p s = p).
  { unfold deliver. destruct (liveness p); [contradiction| |]; reflexivity. }
  rewrite D. apply IH. exact L.
Qed.

Lemma created_operations (acct : Account) (proxyArg : option string) :
  operations (output (created acct proxyArg)) = [].
Proof. destruct proxyArg as [[|c rest]|]; reflexivity. Qed.

Section HealthyLife.

Variable StringToNumber : string -> number.
Variable NumberToString : number -> string.
Variable net : Network.
Hypothesis ordinary_net : forall i, ordinary (net i) = true.

(** A running bot that is marked on, after one more tick. *)
Lemma healthy_tick (p : Process) :
  liveness p = Running -> timer (agent p) = true ->
  toggleState (this (agent p)) = true ->
  let p' := deliver StringToNumber NumberToString net p Tick in
  liveness p' = Running /\ timer (agent p') = true /\
  sigint (agent p') = sigint (agent p) /\
  toggleState (this (agent p')) = true /\
  uptimeMinutes (this (agent p')) = (uptimeMinutes (this (agent p)) + 1)%N /\
  operations (output p') =
  (operations (output p) ++ [HeartbeatCall; WalletCall; UptimeLog])%list.
Proof.
  intros L T On. unfold deliver, exec. rewrite L, T.
  destruct (timerCallback_run StringToNumber NumberToString
              (later (answered p) net) (agent p))
    as (e & evs & u & a' & _ & A & En & (rest & Plan & Whole) & _ & ->).
  destruct En as [-> | [_ [i NO]]];
    [|unfold later in NO; rewrite ordinary_net in NO; discriminate].
  destruct A as [-> | (Off & _)]; [|rewrite On in Off; discriminate].
  unfold absorb.
  cbn [ending after events used agent output liveness answered].
  rewrite operations_app. unfold tickPlan in Plan. rewrite On in Plan.
  rewrite (Whole eq_refl), app_nil_r in Plan. rewrite <- Plan.
  cbn. rewrite On. repeat split; try assumption.
Qed.

Lemma healthy_ticks (n : nat) :
  forall p,
    liveness p = Running -> timer (agent p) = true ->
    toggleState (this (agent p)) = true ->
    let q := life StringToNumber NumberToString net p (repeat Tick n) in
    liveness q = Running /\ timer (agent q) = true /\
    sigint (agent q) = sigint (agent p) /\
    toggleState (this (agent q)) = true /\
    uptimeMinutes (this (agent q)) =
    (uptimeMinutes (this (agent p)) + N.of_nat n)%N /\
    operations (output q) =
    (operations (output p) ++
     List.concat (repeat [HeartbeatCall; WalletCall; UptimeLog] n))%list.
Proof.
  induction n as [|n IH]; intros p L T On.
  - cbn. rewrite app_nil_r, N.add_0_r. repeat split; assumption.
  - cbn [repeat life fold_left].
    destruct (healthy_tick p L T On) as (L' & T' & S' & On' & U' & Ops').
    destruct (IH _ L' T' On') as (L2 & T2 & S2 & On2 & U2 & Ops2).
    unfold life in *. cbv zeta in *.
    rewrite L2, T2, S2, S', On2, U2, U', Ops2, Ops'.
    repeat split; [lia|]. rewrite <- app_assoc. reflexivity.
Qed.

Lemma healthy_boot (acct : Account) (proxyArg : option string) :
  let p := boot acct proxyArg net in
  liveness p = Running /\ timer (agent p) = true /\
  sigint (agent p) = true /\ toggleState (this (agent p)) = true /\
  uptimeMinutes (this (agent p)) = 0%N /\
  operations (output p) = [ToggleCall "ON"; HeartbeatCall].
Proof.
  cbv zeta. unfold boot, exec.
  change (later (answered (created acct proxyArg)) net) with net.
  destruct (opening_cases net (agent (created acct proxyArg)))
    as (evs & u & a' & -> & Cases).
  rewrite !ordinary_net in Cases.
  destruct Cases as (-> & Ops & _).
  unfold absorb.
  cbn [ending after events used agent output liveness answered].
  rewrite operations_app, Ops, created_operations.
  unfold openingToggled. destruct (net 0%nat); repeat split.
Qed.

(** X10: with ordinary settlements the whole life is the plan: the
    opening sends the ON toggle and one heartbeat, and every tick after
    it a heartbeat, a wallet call and the uptime line.  The ON toggle is
    sent once and never again, also when it was rejected: the device
    stays marked on from the constructor. *)
Theorem healthy_life_trace (acct : Account) (proxyArg : option string)
  (n : nat) :
  let p := life StringToNumber NumberToString net
             (boot acct proxyArg net) (repeat Tick n) in
  operations (output p) =
  ([ToggleCall "ON"; HeartbeatCall] ++
   List.concat (repeat [HeartbeatCall; WalletCall; UptimeLog] n))%list /\
  toggleState (this (agent p)) = true /\
  liveness p = Running.
Proof.
  destruct (healthy_boot acct proxyArg) as (L & T & _ & On & _ & Ops).
  destruct (healthy_ticks n _ L T On) as (L' & _ & _ & On' & _ & Ops').
  cbv zeta in *. rewrite Ops', Ops. auto.
Qed.

(** X14: the interrupt after [n] ticks of such a life.  The listener
    clears the interval, sends the one OFF toggle of the life, prints
    the final uptime -- [n] minutes -- and exits; whatever arrives after
    that changes nothing. *)
Theorem interrupted_life_reports_uptime (acct : Account)
  (proxyArg : option string) (n : nat) (ss : list Stimulus) :
  let p := life StringToNumber NumberToString net
             (boot acct proxyArg net) (repeat Tick n ++ Interrupt :: ss) in
  liveness p = ExitedCleanly /\
  timer (agent p) = false /\
  operations (output p) =
  ([ToggleCall "ON"; HeartbeatCall] ++
   List.concat (repeat [HeartbeatCall; WalletCall; UptimeLog] n) ++
   [ToggleCall "OFF"])%list /\
  exists before,
    output p =
    (before ++ [Console (BotStopped (N.of_nat n)); ProcessExit])%list.
Proof.
  destruct (healthy_boot acct proxyArg) as (L & T & S & On & U & Ops).
  destruct (healthy_ticks n _ L T On) as (L' & T' & S' & On' & U' & Ops').
  cbv zeta in *. rewrite life_app.
  set (q := life StringToNumber NumberToString net
              (boot acct proxyArg net) (repeat Tick n)) in *.
  cbn [life fold_left].
  assert (Stop :
            let q' := deliver StringToNumber NumberToString net q Interrupt in
            liveness q' = ExitedCleanly /\ timer (agent q') = false /\
            operations (output q') =
            (operations (output q) ++ [ToggleCall "OFF"])%list /\
            exists before,
              output q' =
              (before ++ [Console (BotStopped (uptimeMinutes (this (agent q))));
                          ProcessExit])%list).
  { cbv zeta. unfold deliver, exec. rewrite L', S', S.
    unfold sigintListener. cbn. rewrite run_bind, toggleDevice_run.
    pose proof (ordinary_net (answered q)) as O. unfold later.
    rewrite Nat.add_0_r.
    destruct (net (answered q)) as [response|reason] eqn:E.
    - unfold absorb. cbn. rewrite operations_app. cbn. repeat split.
      eexists (output q ++ [_; _; _; _; _])%list.
      rewrite <- app_assoc. reflexivity.
    - cbn in O. apply negb_true_iff in O.
      destruct (member reason "message") as [m|x] eqn:M;
        [|apply member_thrown in M as [N' _]; rewrite O in N'; discriminate].
      unfold absorb. cbn. rewrite operations_app. cbn. repeat split.
      eexists (output q ++ [_; _; _; _])%list.
      rewrite <- app_assoc. reflexivity. }
  cbv zeta in Stop. destruct Stop as (Lq & Tq & Oq & before & Out).
  unfold life. fold (life StringToNumber NumberToString net
    (deliver StringToNumber NumberToString net q Interrupt) ss).
  rewrite life_not_running by (rewrite Lq; discriminate).
  rewrite Lq, Tq, Oq, Ops', Ops, Out, U', U, N.add_0_l.
  repeat split; try (rewrite <- app_assoc; reflexivity).
  exists before. reflexivity.
Qed.

End HealthyLife.

Lemma healthy_life_trace_witness :
  let net : Network :=
    fun i => match i with
             | O => Rejected (JObject [("message", JString "403")])
             | _ => Fulfilled (JString "ok")
             end in
  operations
    (output (life noStringNumber noLargeNumber net
               (boot acctA None net) (repeat Tick 2))) =
  [ToggleCall "ON"; HeartbeatCall;
   HeartbeatCall; WalletCall; UptimeLog;
   HeartbeatCall; WalletCall; UptimeLog].
Proof.
  intros net.
  assert (O : forall i, ordinary (net i) = true)
    by (intros [|i]; reflexivity).
  exact (proj1 (healthy_life_trace noStringNumber noLargeNumber
                  net O acctA None 2)).
Defined.

Lemma interrupted_life_reports_uptime_witness :
  liveness (life noStringNumber noLargeNumber okNet
              (boot acctA None okNet) (repeat Tick 3 ++ [Interrupt; Tick]))
  = ExitedCleanly.
Proof.
  exact (proj1 (interrupted_life_reports_uptime noStringNumber noLargeNumber
                  okNet (fun _ => eq_refl) acctA None 3 [Tick])).
Defined.

(** ** After a tick that threw *)

Section Recovery.

Variable StringToNumber : string -> number.
Variable NumberToString : number -> string.

(** A tick that starts with the device marked off: how its ON toggle
    settles decides what the heartbeat of the same tick reports. *)
Lemma retoggle_then_heartbeat net b :
  toggleState (this b) = false ->
  let r := run (timerCallback StringToNumber NumberToString) net b in
  match net 0%nat with
  | Fulfilled _ =>
      In (Post (heartbeatRequest (set_toggleState true (this (bumped b)))))
         (events r) /\
      (ending (run (timerBody StringToNumber NumberToString) net b)
       = Returned tt -> toggleState (this (after r)) = true)
  | Rejected reason =>
      nullish reason = false ->
      In (Post (heartbeatRequest (this (bumped b)))) (events r) /\
      toggleState (this (after r)) = false
  end.
Proof.
  intros Off. cbv zeta. unfold timerCallback. rewrite run_try_catch.
  unfold timerBody. cbn.
  destruct (_ =? 0)%N; cbn; rewrite Off; cbn;
    rewrite run_bind; settle_case toggleDevice_run; cbn.
  all: try (rewrite run_bind; settle_case sendHeartbeat_run; cbn).
  all: try (rewrite run_bind; wallet_case; cbn;
            destruct O as [-> | [[msg ->] O]]; cbn).
  all: repeat match goal with
         | M : member ?reason "message" = Thrown _ |- _ =>
             let N := fresh "N" in
             apply member_thrown in M as [N [? ->]]
         end.
  all: rewrite ?logError_run; cbn.
  all: intros;
    try match goal with
        | N : nullish ?v = true, H : nullish ?v = false |- _ =>
            rewrite N in H; discriminate H
        end.
  all: split;
    [ cbn; repeat (first [left; reflexivity | right])
    | intros; first [reflexivity | discriminate | assumption] ].
Qed.

(** X11: the way back after a tick whose [try] body threw.  That tick
    leaves the device marked off; the next tick therefore begins with an
    ON toggle.  If the toggle is fulfilled, the heartbeat of that tick
    already reports the device on (and the device stays on unless this
    tick throws too); if it is rejected with an error value, the
    heartbeat is sent all the same, reporting off, and the device stays
    off for the tick after. *)
Theorem thrown_tick_is_recovered (net1 net2 : Network) (a : Agent)
  (x : JsValue) :
  ending (run (timerBody StringToNumber NumberToString) net1 a) = Raised x ->
  let a1 := after (run (timerCallback StringToNumber NumberToString) net1 a) in
  let r2 := run (timerCallback StringToNumber NumberToString) net2 a1 in
  toggleState (this a1) = false /\
  hd_error (operations (events r2)) = Some (ToggleCall "ON") /\
  match net2 0%nat with
  | Fulfilled _ =>
      In (Post (heartbeatRequest (set_toggleState true (this (bumped a1)))))
         (events r2) /\
      (ending (run (timerBody StringToNumber NumberToString) net2 a1)
       = Returned tt -> toggleState (this (after r2)) = true)
  | Rejected reason =>
      nullish reason = false ->
      In (Post (heartbeatRequest (this (bumped a1)))) (events r2) /\
      toggleState (this (after r2)) = false
  end.
Proof.
  intros Thrown. cbv zeta.
  assert (Off : toggleState
                  (this (after (run (timerCallback StringToNumber
                                       NumberToString) net1 a))) = false).
  { destruct (timerCallback_run StringToNumber NumberToString net1 a)
      as (e & evs & u & a' & Body & _ & _ & _ & _ & ->).
    rewrite Body in Thrown. cbn in Thrown. subst e. reflexivity. }
  split; [exact Off|]. split.
  - destruct (timerCallback_run StringToNumber NumberToString net2
                (after (run (timerCallback StringToNumber NumberToString)
                          net1 a)))
      as (e & evs & u & a' & _ & _ & _ & _ & First & ->).
    destruct (First Off) as (before & later_on & -> & Quiet).
    destruct e; cbn; rewrite ?operations_app, ?Quiet;
      try rewrite operations_app, Quiet; reflexivity.
  - exact (retoggle_then_heartbeat net2 _ Off).
Qed.

(** ** The wallet call when things go wrong *)

(** X12: [getWalletDetails] never changes the bot and sends exactly one
    request.  Each way of failing prints exactly one line that names
    it: a body that reports an error, "Wallet Details" with the body's
    message, or the body itself when it has none; a body without a
    [details] object (a string, [null], an object lacking the key),
    "Wallet Details Fetch" with the TypeError's message; a rejection
    with an error value, "Wallet Details Fetch" with its message.  In
    all three the call returns normally. *)
Theorem wallet_failures_print_one_line (net : Network) (a : Agent) :
  let r := run (getWalletDetails StringToNumber NumberToString) net a in
  after r = a /\ used r = 1%nat /\
  match net 0%nat with
  | Fulfilled response =>
      ending r = Returned tt /\
      (truthy (field response "error") = true ->
       events r =
       [Post (walletRequest (this a));
        Console (ErrorLine "Wallet Details"
                   (or_else (field response "message") response))]) /\
      (truthy (field response "error") = false ->
       nullish (field response "details") = true ->
       exists message,
         message <> "" /\
         events r =
         [Post (walletRequest (this a));
          Console (ErrorLine "Wallet Details Fetch" (JString message))])
  | Rejected reason =>
      nullish reason = false ->
      ending r = Returned tt /\
      events r =
      [Post (walletRequest (this a));
       Console (ErrorLine "Wallet Details Fetch"
                  (or_else (field reason "message") reason))]
  end.
Proof.
  cbv zeta.
  destruct (getWalletDetails_run StringToNumber NumberToString net a)
    as (e & lines & R & _ & _ & W).
  do 2 (split; [rewrite R; reflexivity|]).
  destruct (net 0%nat) as [response|reason] eqn:N0.
  - destruct W as (-> & _). split; [rewrite R; reflexivity|]. clear R.
    unfold getWalletDetails, logError. cbn. rewrite N0. cbn.
    destruct response as [| |b|x|s|props|items]; cbn.
    1-5, 7: split; intros; try discriminate;
            eexists; (split; [|reflexivity]); discriminate.
    unfold field; cbn.
    destruct (truthy match lookup "error" props with
                     | Some x => x
                     | None => JUndefined
                     end) eqn:E; cbn.
    + split; intros; [reflexivity|discriminate].
    + split; [intros; discriminate|]. intros _.
      destruct (match lookup "details" props with
                | Some x => x
                | None => JUndefined
                end) as [| |b|x|s|dprops|ditems] eqn:D; cbn;
        intros; try discriminate;
        eexists; (split; [|reflexivity]); discriminate.
  - clear R W. unfold getWalletDetails, logError. cbn. rewrite N0. cbn.
    unfold field.
    destruct (member reason "message") as [m|x] eqn:M; cbn.
    + intros _. split; reflexivity.
    + apply member_thrown in M as [N _].
      intros H. rewrite N in H. discriminate.
Qed.

(** X13: a rate that is not a number is coerced the way the language
    does it.  When the other fields have strings the report is printed
    with the coerced amount: a non-empty string counts with its numeric
    value, [true] as 1, an array with the numeric value of its joined
    elements, a plain object gives NaN.  An object with an own
    [toString] property, or an array holding one, has no primitive: the
    product throws before anything is printed, and the call logs the
    TypeError and nothing else.  The call returns normally either way. *)
Theorem non_numeric_rate_is_coerced (net : Network) (a : Agent)
  (response : JsValue) :
  net 0%nat = Fulfilled response ->
  truthy (field response "error") = false ->
  let r := run (getWalletDetails StringToNumber NumberToString) net a in
  let details := field response "details" in
  let rate := field details "activeRatePerMinute" in
  let uptime := of_N (uptimeMinutes (this a)) in
  let printed amount := In (Console (EstimatedSessionEarnings amount))
                           (events r) in
  let refused := events r = [Post (walletRequest (this a));
                             conversionFailure] in
  (forall total today,
      ToString NumberToString (field details "totalEarnings")
      = Normal total ->
      ToString NumberToString (field details "todayEarnings")
      = Normal today ->
      (forall s, rate = JString s -> s <> "" ->
                 printed (toFixed4 NumberToString
                            (mul uptime (StringToNumber s)))) /\
      (rate = JBool true ->
       printed (toFixed4 NumberToString (mul uptime one))) /\
      (forall items joined,
          rate = JArray items ->
          ToString NumberToString rate = Normal joined ->
          printed (toFixed4 NumberToString
                     (mul uptime (StringToNumber joined)))) /\
      (forall props, rate = JObject props ->
                     hasOwn "toString" props = false -> printed "NaN")) /\
  (forall props, rate = JObject props ->
                 hasOwn "toString" props = true -> refused) /\
  (forall items x, rate = JArray items ->
                   ToString NumberToString rate = Thrown x -> refused) /\
  ending r = Returned tt.
Proof.
  intros N0 E. cbv zeta.
  assert (Known : forall v,
             field (field response "details") "activeRatePerMinute" = v ->
             v <> JUndefined ->
             nullish (field response "details") = false).
  { intros v Hv NU. destruct (field response "details"); try reflexivity;
      cbn in Hv; congruence. }
  assert (Refused : forall x,
             sessionEarnings StringToNumber NumberToString
               (uptimeMinutes (this a))
               (field (field response "details") "activeRatePerMinute")
             = Thrown x ->
             nullish (field response "details") = false ->
             events (run (getWalletDetails StringToNumber NumberToString)
                       net a)
             = [Post (walletRequest (this a)); conversionFailure]).
  { intros x S D.
    destruct (getWalletDetails_run StringToNumber NumberToString net a)
      as (e & lines & -> & _ & _ & W).
    rewrite N0 in W. destruct W as (_ & Report & _).
    rewrite (Report E D). cbv zeta. rewrite S. reflexivity. }
  split; [|split; [|split]].
  - intros total today T1 T2.
    assert (Shown : forall v earnings,
               field (field response "details") "activeRatePerMinute" = v ->
               v <> JUndefined ->
               sessionEarnings StringToNumber NumberToString
                 (uptimeMinutes (this a)) v = Normal earnings ->
               In (Console (EstimatedSessionEarnings
                              (toFixed4 NumberToString earnings)))
                  (events (run (getWalletDetails StringToNumber
                                  NumberToString) net a))).
    { intros v earnings R NU S.
      pose proof (Known v R NU) as D.
      assert (T3 : exists shown, ToString NumberToString v = Normal shown).
      { unfold sessionEarnings, or_else in S.
        destruct v as [| |b|x|s|props|items]; cbn [ToString];
          try (eexists; reflexivity).
        - destruct b; eexists; reflexivity.
        - cbv [truthy ToNumber] in S.
          destruct (hasOwn "toString" props) eqn:Own; [discriminate S|].
          eexists. cbv [ToString]. rewrite Own. reflexivity.
        - cbv [truthy ToNumber] in S.
          destruct (ToString NumberToString (JArray items)) eqn:J;
            [eexists; reflexivity|discriminate S]. }
      destruct T3 as [shown T3]. rewrite <- R in S, T3.
      rewrite (full_report StringToNumber NumberToString net a response
                 earnings total today shown N0 E D S T1 T2 T3).
      cbn. auto 10. }
    repeat split.
    + intros s R NE. apply (Shown _ _ R); [discriminate|].
      unfold sessionEarnings, or_else.
      destruct s as [|c rest]; [contradiction|]. reflexivity.
    + intros R. apply (Shown _ _ R); [discriminate|]. reflexivity.
    + intros items joined R J. apply (Shown _ _ R); [discriminate|].
      rewrite R in J. unfold sessionEarnings, or_else.
      cbv [truthy ToNumber]. rewrite J. reflexivity.
    + intros props R NoOwn.
      replace "NaN" with
        (toFixed4 NumberToString
           (mul (of_N (uptimeMinutes (this a))) S754_nan))
        by (destruct (uptimeMinutes (this a)); reflexivity).
      apply (Shown _ _ R); [discriminate|].
      unfold sessionEarnings, or_else. cbv [truthy ToNumber].
      rewrite NoOwn. reflexivity.
  - intros props R Own.
    apply (Refused notPrimitive); [|exact (Known _ R ltac:(discriminate))].
    rewrite R. unfold sessionEarnings, or_else. cbv [truthy ToNumber].
    rewrite Own. reflexivity.
  - intros items x R J.
    apply (Refused x); [|exact (Known _ R ltac:(discriminate))].
    rewrite R in *. unfold sessionEarnings, or_else. cbv [truthy ToNumber].
    rewrite J. reflexivity.
  - destruct (getWalletDetails_run StringToNumber NumberToString net a)
      as (e & lines & -> & _ & _ & W).
    rewrite N0 in W. destruct W as (-> & _). reflexivity.
Qed.

End Recovery.

Lemma thrown_tick_is_recovered_witness :
  let a1 := after (run (timerCallback noStringNumber noLargeNumber)
                     (fun _ => Rejected JUndefined) (agentOf botA)) in
  toggleState (this a1) = false /\
  hd_error
    (operations
       (events (run (timerCallback noStringNumber noLargeNumber) okNet a1)))
  = Some (ToggleCall "ON").
Proof.
  destruct (thrown_tick_is_recovered noStringNumber noLargeNumber
              (fun _ => Rejected JUndefined) okNet (agentOf botA)
              (TypeError "Cannot read properties of nullish value: message")
              eq_refl) as (H1 & H2 & _).
  split; assumption.
Defined.

(** The rate [[2]] after 4 minutes: the array counts as 2 and the
    report ends with 8.0000. *)
Lemma non_numeric_rate_is_coerced_witness :
  In (Console (EstimatedSessionEarnings "8.0000"))
     (events
        (run (getWalletDetails digitsToNumber integerToString)
           (fun _ => Fulfilled
                       (JObject
                          [("details",
                            JObject [("activeRatePerMinute",
                                      JArray [JNumber two])])]))
           (agentOf (set_uptimeMinutes 4 botA)))).
Proof.
  destruct (non_numeric_rate_is_coerced digitsToNumber integerToString
              (fun _ => Fulfilled
                          (JObject
                             [("details",
                               JObject [("activeRatePerMinute",
                                         JArray [JNumber two])])]))
              (agentOf (set_uptimeMinutes 4 botA)) _ eq_refl eq_refl)
    as (H & _).
  destruct (H "undefined" "undefined" eq_refl eq_refl) as (_ & _ & Arr & _).
  exact (Arr [JNumber two] "2" eq_refl eq_refl).
Defined.
